(** * Packet flow coordination and rate-limited preempting server

    A shallow embedding of two classes of the INET queueing library:

    - [PacketFlowBase] (src/inet/queueing/base/PacketFlowBase.cc), the flow
      coordinator relaying packets between an input and an output edge in
      atomic and in streaming mode;
    - [PreemptingServer] (src/inet/queueing/server/PreemptingServer.cc), the
      server that streams one packet at a time at a fixed data rate and can
      finish the transfer early.

    C++ member functions become computations in a state-and-exception monad
    over a record holding the fields of the object together with the part of
    its surroundings that it talks to: the replies its Provider will give and
    the trace of calls made on its neighbours.  A thrown [cRuntimeError]
    keeps the state reached at the throw, as the C++ object does.

    [Enter_Method], [take] of a packet that is not null, [EV_INFO] logging
    and [updateDisplayString] change nothing of what is modelled and are
    left out; every other statement of the embedded functions has its
    counterpart, in the order of the source. *)

From Stdlib Require Import ZArith List Bool QArith Lia.
Import ListNotations.
Local Open Scope Z_scope.

(** ** Packets *)

(** A gate of a module, identified by its number. *)
Definition Gate := Z.

(** [bps] and [s] hold fractional values; they are idealised as rationals. *)
Definition Rate := Q.
Definition Time := Q.

(** The part of [Packet] the two classes read: [getTreeId],
    [getTransmissionId], [getTotalLength] (a length in bits), and the
    content that [processPacket] may rewrite. *)
Record Packet : Type := mkPacket {
  treeId : Z;
  transmissionId : Z;
  totalLength : Z;
  content : list Z
}.

(** ** Errors, outcomes and the monad *)

Inductive Error : Type :=
| StreamingInProgress
    (* cRuntimeError("Another packet streaming operation is already in progress") *)
| UnboundReference
    (* a module reference that is nullptr is dereferenced *)
| NullPacket.
    (* a neighbour handed back nullptr where a packet is required *)

Inductive Outcome (A : Type) : Type :=
| Ok (a : A)
| Throw (e : Error).
Arguments Ok {A} a.
Arguments Throw {A} e.

Definition M (S A : Type) : Type := S -> Outcome A * S.

Definition ret {S A} (a : A) : M S A := fun s => (Ok a, s).

Definition bind {S A B} (m : M S A) (k : A -> M S B) : M S B :=
  fun s => match m s with
           | (Ok a, s') => k a s'
           | (Throw e, s') => (Throw e, s')
           end.

Definition throw {S A} (e : Error) : M S A := fun s => (Throw e, s).
Definition get {S} : M S S := fun s => (Ok s, s).
Definition modify {S} (f : S -> S) : M S unit := fun s => (Ok tt, f s).

Declare Scope flow_scope.
Delimit Scope flow_scope with flow.
Notation "x <- m ;; k" := (bind m (fun x => k))
  (at level 61, m at next level, right associativity) : flow_scope.
Notation "m ;; k" := (bind m (fun _ => k))
  (at level 61, right associativity) : flow_scope.
Local Open Scope flow_scope.

Definition failed {A S} (r : Outcome A * S) : option Error :=
  match fst r with
  | Ok _ => None
  | Throw e => Some e
  end.

(** ** The flow coordinator *)

Module PacketFlowBase.

Inductive Signal : Type :=
| packetPushedInSignal
| packetPushedOutSignal
| packetPulledInSignal
| packetPulledOutSignal.

(** What the coordinator does to the world around it, one constructor per
    outgoing call of PacketFlowBase.cc. The gate argument is the referenced
    gate of the neighbour ([None] for a neighbour that is not bound, where
    the helper is called with it). *)
Inductive Event : Type :=
| Emit (sig : Signal) (p : Packet)
| HandlePacketProcessed (p : Packet)
| PushOrSendPacket (p : Packet) (consumer : option Gate)
| PushOrSendPacketStart (p : Packet) (consumer : option Gate) (datarate : Rate) (tid : Z)
| PushOrSendPacketEnd (p : Packet) (consumer : option Gate) (tid : Z)
| PushOrSendPacketProgress (p : Packet) (consumer : option Gate) (datarate : Rate)
    (position extraProcessableLength : Z) (tid : Z)
| ProviderPullPacket (g : Gate)
| ProviderPullPacketStart (g : Gate) (datarate : Rate)
| ProviderPullPacketEnd (g : Gate)
| ProviderPullPacketProgress (g : Gate) (datarate : Rate) (position extraProcessableLength : Z)
| AnimatePullPacket (p : Packet)
| AnimatePullPacketStart (p : Packet) (datarate : Rate) (tid : Z)
| AnimatePullPacketEnd (p : Packet) (tid : Z)
| AnimatePullPacketProgress (p : Packet) (datarate : Rate)
    (position extraProcessableLength : Z) (tid : Z)
| ProducerHandleCanPushPacketChanged (g : Gate)
| ProducerHandlePushPacketProcessed (p : Packet) (g : Gate) (successful : bool)
| CollectorHandleCanPullPacketChanged (g : Gate)
| CollectorHandlePullPacketProcessed (p : Packet) (g : Gate) (successful : bool).

(** The object and its surroundings. [inProgressStreamId] is [-1] when no
    streaming session is open. [upstream] lists the packets the Provider
    hands back at its next calls (it hands back nullptr once the list is
    empty); [trace] grows at its end. *)
Record Flow : Type := mkFlow {
  inProgressStreamId : Z;
  producer : option Gate;
  consumer : option Gate;
  provider : option Gate;
  collector : option Gate;
  upstream : list Packet;
  trace : list Event
}.

Definition set_inProgressStreamId (id : Z) (f : Flow) : Flow :=
  mkFlow id (producer f) (consumer f) (provider f) (collector f) (upstream f) (trace f).

Definition set_upstream (u : list Packet) (f : Flow) : Flow :=
  mkFlow (inProgressStreamId f) (producer f) (consumer f) (provider f) (collector f) u (trace f).

Definition add_event (e : Event) (f : Flow) : Flow :=
  mkFlow (inProgressStreamId f) (producer f) (consumer f) (provider f) (collector f)
         (upstream f) (trace f ++ [e]).

Definition call (e : Event) : M Flow unit := modify (add_event e).

Definition emit (sig : Signal) (p : Packet) : M Flow unit := call (Emit sig p).

(** [take(packet)]: ownership moves to this module; a nullptr cannot be taken. *)
Definition take (packet : option Packet) : M Flow Packet :=
  match packet with
  | Some p => ret p
  | None => throw NullPacket
  end.

(** Modelled from the spec: [handlePacketProcessed] of the base class
    PacketProcessorBase, whose definition is not among the sources; the
    packet is recorded as processed. *)
Definition handlePacketProcessed (p : Packet) : M Flow unit :=
  call (HandlePacketProcessed p).

(** Modelled from the spec: [isStreamingPacket], declared in the header
    that is not among the sources; a session is open iff the stream id is
    not the sentinel [-1]. *)
Definition isStreamingPacket (f : Flow) : bool :=
  negb (inProgressStreamId f =? -1).

(** Modelled from the spec: dereferencing the Provider reference
    ([provider->...], class ModuleRefByGate, not among the sources); a
    missing upstream binding when pulling is fatal. The call is recorded and
    the Provider's next reply is consumed. *)
Definition provider_call (request : Gate -> Event) : M Flow (option Packet) :=
  f <- get ;;
  match provider f with
  | None => throw UnboundReference
  | Some g =>
      call (request g) ;;
      match upstream f with
      | [] => ret None
      | p :: rest => modify (set_upstream rest) ;; ret (Some p)
      end
  end.

(** *** Reading the state *)

Definition sessionOpen (f : Flow) : Prop := inProgressStreamId f <> -1.
Definition idle (f : Flow) : Prop := inProgressStreamId f = -1.

(** The verdict of the consistency check on a candidate, written from the
    rule and not from the code: a session is open, and the candidate is
    absent or belongs to another tree. *)
Definition rejects (f : Flow) (candidate : option Packet) : Prop :=
  sessionOpen f /\
  match candidate with
  | None => True
  | Some p => treeId p <> inProgressStreamId f
  end.

(** The events appended by a run that started with trace [before]. *)
Definition appended (before : list Event) (f : Flow) : list Event :=
  skipn (length before) (trace f).

(** Packets whose transfer to the downstream edge is complete: pushed whole,
    or closed by an end notification. *)
Definition delivered_by (e : Event) : list Packet :=
  match e with
  | PushOrSendPacket p _ => [p]
  | PushOrSendPacketEnd p _ _ => [p]
  | _ => []
  end.

Definition delivered (tr : list Event) : list Packet := flat_map delivered_by tr.

Definition isEndNotification (e : Event) : bool :=
  match e with
  | PushOrSendPacketEnd _ _ _ => true
  | AnimatePullPacketEnd _ _ => true
  | _ => false
  end.

Definition isProgressNotification (e : Event) : bool :=
  match e with
  | PushOrSendPacketProgress _ _ _ _ _ _ => true
  | AnimatePullPacketProgress _ _ _ _ _ => true
  | _ => false
  end.

(** *** Concrete data *)

(** A subclass hook that prepends an 8-bit header. *)
Definition prependHeader (p : Packet) : Packet :=
  mkPacket (treeId p) (transmissionId p) (totalLength p + 8) (0 :: content p).

Definition packet7 : Packet := mkPacket 7 70 100 [1; 2; 3].
Definition packet8 : Packet := mkPacket 8 80 100 [4; 5; 6].
Definition rate10 : Rate := (10 # 1)%Q.

(** A coordinator with all four neighbours bound, its session given by
    [id], and a Provider that will hand back [replies]. *)
Definition coordinator (id : Z) (replies : list Packet) : Flow :=
  mkFlow id (Some 1) (Some 2) (Some 3) (Some 4) replies [].

(** The same coordinator with no Producer and no Collector. *)
Definition unattended (id : Z) : Flow :=
  mkFlow id None (Some 2) (Some 3) None [] [].

(** *** Operations *)

Section Operations.

(** [processPacket] is pure virtual in PacketFlowBase: the subclass decides
    how the packet is rewritten in place. *)
Variable processPacket : Packet -> Packet.

Definition checkPacketStreaming (packet : option Packet) : M Flow unit :=
  f <- get ;;
  if negb (inProgressStreamId f =? -1)
     && match packet with
        | None => true
        | Some p => negb (treeId p =? inProgressStreamId f)
        end
  then throw StreamingInProgress
  else ret tt.

Definition startPacketStreaming (packet : Packet) : M Flow unit :=
  modify (set_inProgressStreamId (treeId packet)).

Definition endPacketStreaming (packet : Packet) : M Flow unit :=
  handlePacketProcessed packet ;;
  modify (set_inProgressStreamId (-1)).

Definition pushPacket (packet : Packet) : M Flow unit :=
  checkPacketStreaming None ;;
  emit packetPushedInSignal packet ;;
  let packet := processPacket packet in
  handlePacketProcessed packet ;;
  emit packetPushedOutSignal packet ;;
  f <- get ;;
  call (PushOrSendPacket packet (consumer f)).

Definition pushPacketStart (packet : Packet) (datarate : Rate) : M Flow unit :=
  checkPacketStreaming (Some packet) ;;
  emit packetPushedInSignal packet ;;
  startPacketStreaming packet ;;
  let packet := processPacket packet in
  f <- get ;;
  call (PushOrSendPacketStart packet (consumer f) datarate (transmissionId packet)).

Definition pushPacketEnd (packet : Packet) : M Flow unit :=
  f <- get ;;
  (if negb (isStreamingPacket f)
   then startPacketStreaming packet
   else checkPacketStreaming (Some packet)) ;;
  let packet := processPacket packet in
  emit packetPushedOutSignal packet ;;
  endPacketStreaming packet ;;
  f <- get ;;
  call (PushOrSendPacketEnd packet (consumer f) (transmissionId packet)).

Definition pushPacketProgress (packet : Packet) (datarate : Rate)
    (position extraProcessableLength : Z) : M Flow unit :=
  f <- get ;;
  (if negb (isStreamingPacket f)
   then startPacketStreaming packet
   else checkPacketStreaming (Some packet)) ;;
  let isPacketEnd := totalLength packet =? position + extraProcessableLength in
  let packet := processPacket packet in
  if isPacketEnd then
    emit packetPushedOutSignal packet ;;
    endPacketStreaming packet ;;
    f <- get ;;
    call (PushOrSendPacketEnd packet (consumer f) (transmissionId packet))
  else
    f <- get ;;
    call (PushOrSendPacketProgress packet (consumer f) datarate position
            extraProcessableLength (transmissionId packet)).

Definition handleCanPushPacketChanged : M Flow unit :=
  f <- get ;;
  match producer f with
  | Some g => call (ProducerHandleCanPushPacketChanged g)
  | None => ret tt
  end.

Definition handlePushPacketProcessed (packet : Packet) (successful : bool) : M Flow unit :=
  endPacketStreaming packet ;;
  f <- get ;;
  match producer f with
  | Some g => call (ProducerHandlePushPacketProcessed packet g successful)
  | None => ret tt
  end.

Definition pullPacket : M Flow Packet :=
  checkPacketStreaming None ;;
  reply <- provider_call ProviderPullPacket ;;
  packet <- take reply ;;
  emit packetPulledInSignal packet ;;
  let packet := processPacket packet in
  handlePacketProcessed packet ;;
  emit packetPulledOutSignal packet ;;
  call (AnimatePullPacket packet) ;;
  ret packet.

Definition pullPacketStart (datarate : Rate) : M Flow Packet :=
  checkPacketStreaming None ;;
  reply <- provider_call (fun g => ProviderPullPacketStart g datarate) ;;
  packet <- take reply ;;
  emit packetPulledInSignal packet ;;
  modify (set_inProgressStreamId (treeId packet)) ;;
  let packet := processPacket packet in
  emit packetPulledOutSignal packet ;;
  call (AnimatePullPacketStart packet datarate (transmissionId packet)) ;;
  ret packet.

Definition pullPacketEnd : M Flow Packet :=
  reply <- provider_call ProviderPullPacketEnd ;;
  packet <- take reply ;;
  checkPacketStreaming (Some packet) ;;
  emit packetPulledInSignal packet ;;
  let packet := processPacket packet in
  modify (set_inProgressStreamId (treeId packet)) ;;
  emit packetPulledOutSignal packet ;;
  endPacketStreaming packet ;;
  call (AnimatePullPacketEnd packet (transmissionId packet)) ;;
  ret packet.

Definition pullPacketProgress (datarate : Rate)
    (position extraProcessableLength : Z) : M Flow Packet :=
  reply <- provider_call
             (fun g => ProviderPullPacketProgress g datarate position extraProcessableLength) ;;
  packet <- take reply ;;
  checkPacketStreaming (Some packet) ;;
  modify (set_inProgressStreamId (treeId packet)) ;;
  let isPacketEnd := totalLength packet =? position + extraProcessableLength in
  let packet := processPacket packet in
  (if isPacketEnd then
     emit packetPulledOutSignal packet ;;
     endPacketStreaming packet
   else ret tt) ;;
  call (AnimatePullPacketProgress packet datarate position extraProcessableLength
          (transmissionId packet)) ;;
  ret packet.

Definition handleCanPullPacketChanged : M Flow unit :=
  f <- get ;;
  match collector f with
  | Some g => call (CollectorHandleCanPullPacketChanged g)
  | None => ret tt
  end.

Definition handlePullPacketProcessed (packet : Packet) (successful : bool) : M Flow unit :=
  endPacketStreaming packet ;;
  f <- get ;;
  match collector f with
  | Some g => call (CollectorHandlePullPacketProcessed packet g successful)
  | None => ret tt
  end.

(** *** Readiness queries *)





(** *** Call sequences of a neighbour *)

(** A Producer streaming one packet: Start, one Progress per step (each
    step a position and an extra processable length), End. *)
Fixpoint pushPacketProgresses (packet : Packet) (datarate : Rate)
    (steps : list (Z * Z)) : M Flow unit :=
  match steps with
  | [] => ret tt
  | (position, extra) :: steps' =>
      pushPacketProgress packet datarate position extra ;;
      pushPacketProgresses packet datarate steps'
  end.

Definition pushStream (packet : Packet) (datarate : Rate) (steps : list (Z * Z)) : M Flow unit :=
  pushPacketStart packet datarate ;;
  pushPacketProgresses packet datarate steps ;;
  pushPacketEnd packet.

(** A Collector streaming one packet: Start, one Progress per step, End;
    the packets it is handed, in order. *)
Fixpoint pullPacketProgresses (datarate : Rate) (steps : list (Z * Z)) : M Flow (list Packet) :=
  match steps with
  | [] => ret []
  | (position, extra) :: steps' =>
      packet <- pullPacketProgress datarate position extra ;;
      packets <- pullPacketProgresses datarate steps' ;;
      ret (packet :: packets)
  end.

Definition pullStream (datarate : Rate) (steps : list (Z * Z)) : M Flow (list Packet) :=
  first <- pullPacketStart datarate ;;
  middle <- pullPacketProgresses datarate steps ;;
  last <- pullPacketEnd ;;
  ret (first :: middle ++ [last]).

(** The check lets the candidate through: no session is open, or the open
    one is that of its tree. *)
Definition admits (f : Flow) (packet : Packet) : Prop :=
  idle f \/ treeId packet = inProgressStreamId f.

Definition isProviderCall (e : Event) : bool :=
  match e with
  | ProviderPullPacket _ => true
  | ProviderPullPacketStart _ _ => true
  | ProviderPullPacketEnd _ => true
  | ProviderPullPacketProgress _ _ _ _ => true
  | _ => false
  end.

Definition isForwardedDownstream (e : Event) : bool :=
  match e with
  | PushOrSendPacket _ _ => true
  | PushOrSendPacketStart _ _ _ _ => true
  | PushOrSendPacketEnd _ _ _ => true
  | PushOrSendPacketProgress _ _ _ _ _ _ => true
  | _ => false
  end.

(** The notification a push Progress forwards when it is not the last. *)
Definition progressNotification (packet : Packet) (c : option Gate) (datarate : Rate)
    (step : Z * Z) : Event :=
  PushOrSendPacketProgress (processPacket packet) c datarate (fst step) (snd step)
    (transmissionId (processPacket packet)).

(** A step that does not reach [length]. *)
Definition notFinal (length : Z) (step : Z * Z) : Prop :=
  length <> fst step + snd step.

(** The calls a pull Progress makes when it is not the last: on the
    Provider, and to show the progress downstream. *)
Definition pullProgressCalls (g : Gate) (datarate : Rate) (call : (Z * Z) * Packet) : list Event :=
  let '(step, reply) := call in
  [ProviderPullPacketProgress g datarate (fst step) (snd step);
   AnimatePullPacketProgress (processPacket reply) datarate (fst step) (snd step)
     (transmissionId (processPacket reply))].

(** A run that made no call on the Provider and used none of its replies. *)
Definition leavesProviderAlone {A : Type} (f : Flow) (r : Outcome A * Flow) : Prop :=
  upstream (snd r) = upstream f /\
  existsb isProviderCall (appended (trace f) (snd r)) = false.

(** A run that forwarded nothing to the Consumer. *)
Definition forwardsNothing {A : Type} (f : Flow) (r : Outcome A * Flow) : Prop :=
  existsb isForwardedDownstream (appended (trace f) (snd r)) = false.

(** *** Proof tools *)

Ltac unfold_ops :=
  cbv [pushPacket pushPacketStart pushPacketEnd pushPacketProgress
       pullPacket pullPacketStart pullPacketEnd pullPacketProgress
       handleCanPushPacketChanged handlePushPacketProcessed
       handleCanPullPacketChanged handlePullPacketProcessed
       checkPacketStreaming startPacketStreaming endPacketStreaming
       handlePacketProcessed isStreamingPacket provider_call take emit call
       bind ret throw get modify failed].

Ltac case_id :=
  match goal with
  | |- context [?a =? ?b] => destruct (Z.eqb_spec a b)
  | H : context [?a =? ?b] |- _ => destruct (Z.eqb_spec a b)
  end.

Ltac run :=
  unfold_ops; cbv [set_inProgressStreamId set_upstream add_event]; cbn;
  repeat (case_id; cbn in * );
  try congruence; try lia; try reflexivity.

Lemma appended_app (before new : list Event) (f : Flow) :
  trace f = before ++ new -> appended before f = new.
Proof.
  intros H. unfold appended. rewrite H. clear H.
  induction before as [|e before IH]; cbn; [reflexivity | exact IH].
Qed.

Ltac trace_eq :=
  apply appended_app; cbn; rewrite <- ?app_assoc; reflexivity.

(** *** Properties *)

(** C8 -- [pushPacketEnd]: on an idle coordinator the call behaves as on a
    session just opened for the packet (it opens one and closes it at once);
    on an open session of another tree it fails fatally; and whenever it
    does not fail, the session is closed on return and the end notification
    is the last thing forwarded downstream. *)
Theorem pushPacketEnd_closes_session (f : Flow) (packet : Packet) :
  (idle f ->
     failed (pushPacketEnd packet f) = None /\
     pushPacketEnd packet f =
       (startPacketStreaming packet ;; pushPacketEnd packet) f) /\
  (sessionOpen f -> treeId packet <> inProgressStreamId f ->
     failed (pushPacketEnd packet f) = Some StreamingInProgress) /\
  (failed (pushPacketEnd packet f) = None ->
     let packet' := processPacket packet in
     idle (snd (pushPacketEnd packet f)) /\
     appended (trace f) (snd (pushPacketEnd packet f)) =
       [Emit packetPushedOutSignal packet';
        HandlePacketProcessed packet';
        PushOrSendPacketEnd packet' (consumer f) (transmissionId packet')]).
Proof.
  unfold sessionOpen, idle. split; [|split].
  - intros H. split; run.
  - intros H1 H2. run.
  - intros H. cbn zeta. split; revert H; run.
    all: intros _; trace_eq.
Qed.

(** C1, as amended -- every operation fails with the streaming error
    exactly when the consistency rule rejects its candidate. The candidate
    is absent for [pushPacket], [pullPacket] and also for [pullPacketStart];
    it is the pushed packet for the three streaming push operations, and the
    packet the Provider hands back for [pullPacketEnd] and
    [pullPacketProgress]. *)
Theorem streaming_error_iff_rejected
    (f : Flow) (packet : Packet) (datarate : Rate) (position extra : Z) :
  (failed (pushPacket packet f) = Some StreamingInProgress <-> rejects f None) /\
  (failed (pushPacketStart packet datarate f) = Some StreamingInProgress
     <-> rejects f (Some packet)) /\
  (failed (pushPacketEnd packet f) = Some StreamingInProgress
     <-> rejects f (Some packet)) /\
  (failed (pushPacketProgress packet datarate position extra f) = Some StreamingInProgress
     <-> rejects f (Some packet)) /\
  (failed (pullPacket f) = Some StreamingInProgress <-> rejects f None) /\
  (failed (pullPacketStart datarate f) = Some StreamingInProgress <-> rejects f None) /\
  (forall g reply rest,
     provider f = Some g -> upstream f = reply :: rest ->
     (failed (pullPacketEnd f) = Some StreamingInProgress <-> rejects f (Some reply)) /\
     (failed (pullPacketProgress datarate position extra f) = Some StreamingInProgress
        <-> rejects f (Some reply))).
Proof.
  unfold rejects, sessionOpen.
  repeat match goal with |- _ /\ _ => split end.
  7: intros g reply rest Hg Hu; split.
  all: unfold_ops; cbn; try rewrite Hg, Hu; cbn.
  all: repeat (case_id; cbn).
  all: repeat match goal with
         | |- context [provider ?x] => destruct (provider x); cbn
         | |- context [upstream ?x] => destruct (upstream x); cbn
         end.
  all: split; [intros H | intros [H1 H2]]; try discriminate; try tauto; try lia.
Qed.

(** C6, as amended -- an operation aborted by the consistency check leaves
    the session id as it was and has forwarded nothing downstream. For the
    push operations, [pullPacket] and [pullPacketStart] nothing at all has
    happened: the state is the initial one. [pullPacketEnd] and
    [pullPacketProgress] check the packet they have just pulled, so the call
    on the Provider, and only that, has taken place. *)
Theorem aborted_operation_effects
    (f : Flow) (packet : Packet) (datarate : Rate) (position extra : Z) :
  (failed (pushPacket packet f) = Some StreamingInProgress ->
     snd (pushPacket packet f) = f) /\
  (failed (pushPacketStart packet datarate f) = Some StreamingInProgress ->
     snd (pushPacketStart packet datarate f) = f) /\
  (failed (pushPacketEnd packet f) = Some StreamingInProgress ->
     snd (pushPacketEnd packet f) = f) /\
  (failed (pushPacketProgress packet datarate position extra f) = Some StreamingInProgress ->
     snd (pushPacketProgress packet datarate position extra f) = f) /\
  (failed (pullPacket f) = Some StreamingInProgress -> snd (pullPacket f) = f) /\
  (failed (pullPacketStart datarate f) = Some StreamingInProgress ->
     snd (pullPacketStart datarate f) = f) /\
  (failed (pullPacketEnd f) = Some StreamingInProgress ->
     exists g reply rest,
       provider f = Some g /\ upstream f = reply :: rest /\
       inProgressStreamId (snd (pullPacketEnd f)) = inProgressStreamId f /\
       snd (pullPacketEnd f) =
         set_upstream rest (add_event (ProviderPullPacketEnd g) f)) /\
  (failed (pullPacketProgress datarate position extra f) = Some StreamingInProgress ->
     exists g reply rest,
       provider f = Some g /\ upstream f = reply :: rest /\
       inProgressStreamId (snd (pullPacketProgress datarate position extra f)) =
         inProgressStreamId f /\
       snd (pullPacketProgress datarate position extra f) =
         set_upstream rest
           (add_event (ProviderPullPacketProgress g datarate position extra) f)).
Proof.
  repeat match goal with |- _ /\ _ => split end.
  all: unfold_ops; cbn.
  all: repeat (case_id; cbn).
  all: repeat match goal with
         | |- context [provider ?x] => destruct (provider x) as [g|] eqn:Hg; cbn
         | |- context [upstream ?x] => destruct (upstream x) as [|reply rest] eqn:Hu; cbn
         end.
  all: repeat (case_id; cbn).
  all: intros H; try discriminate H; try reflexivity.
  all: exists g, reply, rest; repeat split;
       unfold set_upstream, add_event; cbn; rewrite ?Hg, ?Hu; reflexivity.
Qed.

(** C4, as amended -- a Progress call inside the open session of its
    packet. Push: when [position + extra] is the total length the session is
    closed and the end notification is forwarded downstream, otherwise the
    progress notification is forwarded and the session stays open. Pull:
    when [position + extra] is the total length the session is closed, and
    otherwise it stays open; in both cases what goes downstream is the
    progress notification. *)
Theorem progress_reaching_total_length
    (f : Flow) (packet : Packet) (datarate : Rate) (position extra : Z) :
  (sessionOpen f -> treeId packet = inProgressStreamId f ->
     let r := pushPacketProgress packet datarate position extra f in
     let packet' := processPacket packet in
     failed r = None /\
     (totalLength packet = position + extra ->
        idle (snd r) /\
        appended (trace f) (snd r) =
          [Emit packetPushedOutSignal packet';
           HandlePacketProcessed packet';
           PushOrSendPacketEnd packet' (consumer f) (transmissionId packet')]) /\
     (totalLength packet <> position + extra ->
        inProgressStreamId (snd r) = inProgressStreamId f /\
        appended (trace f) (snd r) =
          [PushOrSendPacketProgress packet' (consumer f) datarate position extra
             (transmissionId packet')])) /\
  (forall g reply rest,
     provider f = Some g -> upstream f = reply :: rest ->
     sessionOpen f -> treeId reply = inProgressStreamId f ->
     let r := pullPacketProgress datarate position extra f in
     let packet' := processPacket reply in
     fst r = Ok packet' /\
     (totalLength reply = position + extra ->
        idle (snd r) /\
        appended (trace f) (snd r) =
          [ProviderPullPacketProgress g datarate position extra;
           Emit packetPulledOutSignal packet';
           HandlePacketProcessed packet';
           AnimatePullPacketProgress packet' datarate position extra
             (transmissionId packet')]) /\
     (totalLength reply <> position + extra ->
        inProgressStreamId (snd r) = inProgressStreamId f /\
        appended (trace f) (snd r) =
          [ProviderPullPacketProgress g datarate position extra;
           AnimatePullPacketProgress packet' datarate position extra
             (transmissionId packet')])).
Proof.
  unfold sessionOpen, idle. split.
  - intros Hopen Hid. cbn zeta.
    repeat match goal with |- _ /\ _ => split | |- _ -> _ => intros ? end.
    all: run; trace_eq.
  - intros g reply rest Hg Hu Hopen Hid. cbn zeta.
    repeat match goal with |- _ /\ _ => split | |- _ -> _ => intros ? end.
    all: unfold_ops; cbn; rewrite Hg, Hu; cbn.
    all: repeat (case_id; cbn); try congruence; try lia; try reflexivity.
    all: trace_eq.
Qed.

(** C7 -- on an idle coordinator, pushing a packet whole and pushing it as
    Start followed by End with no Progress in between both succeed, deliver
    the same processed packet downstream, and both leave the coordinator
    idle. *)
Theorem pushPacket_as_start_then_end
    (f : Flow) (packet : Packet) (datarate : Rate) :
  idle f ->
  let atomic := pushPacket packet f in
  let streamed := (pushPacketStart packet datarate ;; pushPacketEnd packet) f in
  failed atomic = None /\ failed streamed = None /\
  delivered (appended (trace f) (snd atomic)) = [processPacket packet] /\
  delivered (appended (trace f) (snd streamed)) = [processPacket packet] /\
  idle (snd atomic) /\ idle (snd streamed) /\
  upstream (snd atomic) = upstream (snd streamed).
Proof.
  unfold idle. intros Hidle. cbn zeta.
  set (packet' := processPacket packet).
  assert (Hatomic :
    trace (snd (pushPacket packet f)) = trace f ++
      [Emit packetPushedInSignal packet;
       HandlePacketProcessed packet';
       Emit packetPushedOutSignal packet';
       PushOrSendPacket packet' (consumer f)]).
  { run. cbn. rewrite <- ?app_assoc. reflexivity. }
  assert (Hstreamed :
    trace (snd ((pushPacketStart packet datarate ;; pushPacketEnd packet) f)) =
      trace f ++
      [Emit packetPushedInSignal packet;
       PushOrSendPacketStart packet' (consumer f) datarate (transmissionId packet');
       Emit packetPushedOutSignal packet';
       HandlePacketProcessed packet';
       PushOrSendPacketEnd packet' (consumer f) (transmissionId packet')]).
  { run; cbn; rewrite <- ?app_assoc; reflexivity. }
  rewrite (appended_app _ _ _ Hatomic), (appended_app _ _ _ Hstreamed).
  repeat match goal with |- _ /\ _ => split end.
  all: try reflexivity.
  all: run.
Qed.

(** C9 -- a push-capability change is relayed to the bound Producer by one
    call and nothing else happens; without a Producer the state is left
    untouched and no error arises. The same holds for a pull-capability
    change and the Collector. This is so in every state, the idle one
    included. *)
Theorem capability_change_is_relayed_once (f : Flow) :
  (forall g, producer f = Some g ->
     handleCanPushPacketChanged f =
       (Ok tt, add_event (ProducerHandleCanPushPacketChanged g) f)) /\
  (producer f = None -> handleCanPushPacketChanged f = (Ok tt, f)) /\
  (forall g, collector f = Some g ->
     handleCanPullPacketChanged f =
       (Ok tt, add_event (CollectorHandleCanPullPacketChanged g) f)) /\
  (collector f = None -> handleCanPullPacketChanged f = (Ok tt, f)).
Proof.
  repeat match goal with |- _ /\ _ => split end.
  all: intros; unfold_ops; cbn.
  all: repeat match goal with H : _ = _ |- _ => rewrite H end; reflexivity.
Qed.

(** C10 -- the two processed acknowledgments never fail, whatever session
    is open and whatever the tree of the packet: each records the packet as
    processed, leaves the coordinator idle, and then relays the
    acknowledgment to the Producer (the Collector) when one is bound. *)
Theorem processed_acknowledgment_never_fails
    (f : Flow) (packet : Packet) (successful : bool) :
  let push := handlePushPacketProcessed packet successful f in
  let pull := handlePullPacketProcessed packet successful f in
  fst push = Ok tt /\ idle (snd push) /\
  appended (trace f) (snd push) =
    HandlePacketProcessed packet ::
    match producer f with
    | Some g => [ProducerHandlePushPacketProcessed packet g successful]
    | None => []
    end /\
  fst pull = Ok tt /\ idle (snd pull) /\
  appended (trace f) (snd pull) =
    HandlePacketProcessed packet ::
    match collector f with
    | Some g => [CollectorHandlePullPacketProcessed packet g successful]
    | None => []
    end.
Proof.
  unfold idle. cbn zeta.
  repeat match goal with |- _ /\ _ => split end.
  all: unfold_ops; cbn.
  all: try (destruct (producer f)); try (destruct (collector f)); cbn.
  all: try reflexivity; trace_eq.
Qed.

(** *** Further properties: how the operations compose *)

Lemma bind_ok {A B : Type} (m : M Flow A) (k : A -> M Flow B) (f f' : Flow) (a : A) :
  m f = (Ok a, f') -> bind m k f = k a f'.
Proof. intros H. unfold bind. rewrite H. reflexivity. Qed.

Lemma run_ok {A : Type} (r : Outcome A * Flow) (a : A) :
  fst r = Ok a -> r = (Ok a, snd r).
Proof. destruct r as [o s]. cbn. intros ->. reflexivity. Qed.

Ltac step_facts :=
  split; [apply run_ok|]; repeat split;
  unfold_ops; cbv [set_inProgressStreamId set_upstream add_event]; cbn;
  repeat (case_id; cbn in * );
  rewrite <- ?app_assoc; cbn;
  try reflexivity; try congruence; try lia.

Lemma pushPacketStart_admitted (f : Flow) (packet : Packet) (datarate : Rate) :
  admits f packet ->
  exists f',
    pushPacketStart packet datarate f = (Ok tt, f') /\
    inProgressStreamId f' = treeId packet /\
    consumer f' = consumer f /\ upstream f' = upstream f /\ provider f' = provider f /\
    trace f' = trace f ++
      [Emit packetPushedInSignal packet;
       PushOrSendPacketStart (processPacket packet) (consumer f) datarate
         (transmissionId (processPacket packet))].
Proof.
  unfold admits, idle. intros H.
  exists (snd (pushPacketStart packet datarate f)).
  step_facts; destruct H; congruence.
Qed.

Lemma pushPacketProgress_inside (f : Flow) (packet : Packet) (datarate : Rate) (step : Z * Z) :
  inProgressStreamId f = treeId packet ->
  notFinal (totalLength packet) step ->
  exists f',
    pushPacketProgress packet datarate (fst step) (snd step) f = (Ok tt, f') /\
    inProgressStreamId f' = treeId packet /\
    consumer f' = consumer f /\ upstream f' = upstream f /\ provider f' = provider f /\
    trace f' = trace f ++ [progressNotification packet (consumer f) datarate step].
Proof.
  unfold notFinal, progressNotification. intros Hid Hstep.
  exists (snd (pushPacketProgress packet datarate (fst step) (snd step) f)).
  step_facts.
Qed.

Lemma pushPacketEnd_inside (f : Flow) (packet : Packet) :
  inProgressStreamId f = treeId packet ->
  exists f',
    pushPacketEnd packet f = (Ok tt, f') /\
    inProgressStreamId f' = -1 /\
    consumer f' = consumer f /\ upstream f' = upstream f /\ provider f' = provider f /\
    trace f' = trace f ++
      [Emit packetPushedOutSignal (processPacket packet);
       HandlePacketProcessed (processPacket packet);
       PushOrSendPacketEnd (processPacket packet) (consumer f)
         (transmissionId (processPacket packet))].
Proof.
  intros Hid.
  exists (snd (pushPacketEnd packet f)).
  step_facts.
Qed.

Lemma pushPacketProgresses_inside (packet : Packet) (datarate : Rate) (steps : list (Z * Z)) :
  forall f : Flow,
    inProgressStreamId f = treeId packet ->
    Forall (notFinal (totalLength packet)) steps ->
    exists f',
      pushPacketProgresses packet datarate steps f = (Ok tt, f') /\
      inProgressStreamId f' = treeId packet /\
      consumer f' = consumer f /\ upstream f' = upstream f /\ provider f' = provider f /\
      trace f' = trace f ++ map (progressNotification packet (consumer f) datarate) steps.
Proof.
  induction steps as [|[position extra] steps IH]; intros f Hid Hsteps.
  - exists f. cbn. rewrite app_nil_r. repeat split; auto.
  - inversion Hsteps as [|? ? Hstep Hrest]; subst.
    destruct (pushPacketProgress_inside f packet datarate (position, extra) Hid Hstep)
      as (f1 & Hrun & Hid1 & Hc1 & Hu1 & Hp1 & Ht1).
    destruct (IH f1 Hid1 Hrest) as (f2 & Hrun2 & Hid2 & Hc2 & Hu2 & Hp2 & Ht2).
    exists f2. split.
    + cbn [pushPacketProgresses]. cbn [fst snd] in Hrun.
      rewrite (bind_ok _ _ _ _ _ Hrun). exact Hrun2.
    + repeat split; try congruence.
      rewrite Ht2, Ht1, Hc1, <- app_assoc. reflexivity.
Qed.

(** X1 -- a whole streamed push. Whenever the check admits the packet, Start
    followed by any number of Progress calls that do not reach the total
    length and by End succeeds and leaves the coordinator idle; downstream
    is forwarded the start, one progress notification per call in order,
    and one end; the packet is recorded as processed once; the Provider is
    not touched. *)
Theorem streamed_push_run
    (f : Flow) (packet : Packet) (datarate : Rate) (steps : list (Z * Z)) :
  admits f packet ->
  Forall (notFinal (totalLength packet)) steps ->
  let r := pushStream packet datarate steps f in
  let packet' := processPacket packet in
  fst r = Ok tt /\
  idle (snd r) /\
  upstream (snd r) = upstream f /\
  appended (trace f) (snd r) =
    [Emit packetPushedInSignal packet;
     PushOrSendPacketStart packet' (consumer f) datarate (transmissionId packet')] ++
    map (progressNotification packet (consumer f) datarate) steps ++
    [Emit packetPushedOutSignal packet';
     HandlePacketProcessed packet';
     PushOrSendPacketEnd packet' (consumer f) (transmissionId packet')].
Proof.
  intros Hadm Hsteps. cbn zeta.
  destruct (pushPacketStart_admitted f packet datarate Hadm)
    as (f1 & Hrun1 & Hid1 & Hc1 & Hu1 & Hp1 & Ht1).
  destruct (pushPacketProgresses_inside packet datarate steps f1 Hid1 Hsteps)
    as (f2 & Hrun2 & Hid2 & Hc2 & Hu2 & Hp2 & Ht2).
  destruct (pushPacketEnd_inside f2 packet Hid2)
    as (f3 & Hrun3 & Hid3 & Hc3 & Hu3 & Hp3 & Ht3).
  assert (Hrun : pushStream packet datarate steps f = (Ok tt, f3)).
  { unfold pushStream.
    rewrite (bind_ok _ _ _ _ _ Hrun1), (bind_ok _ _ _ _ _ Hrun2). exact Hrun3. }
  rewrite Hrun. cbn [fst snd].
  repeat split; try congruence.
  apply appended_app.
  rewrite Ht3, Ht2, Ht1, Hc2, Hc1, <- !app_assoc. reflexivity.
Qed.

(** X2 -- an End after the Progress that reached the total length is not
    rejected: the Progress has closed the session, so the End opens and
    closes one more, and downstream is forwarded a second end notification
    (and the packet is recorded as processed a second time). *)
Theorem end_after_final_progress_ends_twice
    (f : Flow) (packet : Packet) (datarate : Rate) (position extra : Z) :
  admits f packet ->
  totalLength packet = position + extra ->
  let r := (pushPacketProgress packet datarate position extra ;; pushPacketEnd packet) f in
  let packet' := processPacket packet in
  fst r = Ok tt /\
  idle (snd r) /\
  appended (trace f) (snd r) =
    [Emit packetPushedOutSignal packet';
     HandlePacketProcessed packet';
     PushOrSendPacketEnd packet' (consumer f) (transmissionId packet');
     Emit packetPushedOutSignal packet';
     HandlePacketProcessed packet';
     PushOrSendPacketEnd packet' (consumer f) (transmissionId packet')].
Proof.
  unfold admits, idle. intros Hadm Hlast. cbn zeta.
  repeat split.
  - run; destruct Hadm; congruence.
  - run; destruct Hadm; congruence.
  - apply appended_app. run.
    all: rewrite <- ?app_assoc; try reflexivity.
    all: destruct Hadm; congruence.
Qed.

(** X3 -- one transfer at a time. After a push Start of a packet (whose tree
    id is not the sentinel), the atomic push, the atomic pull and the pull
    Start are rejected whatever their packet, and Start, Progress and End of
    a packet of another tree are rejected too; each rejected call leaves the
    coordinator as the Start left it. *)
Theorem open_stream_excludes_other_transfers
    (f : Flow) (packet other : Packet) (datarate rate' : Rate) (position extra : Z) :
  admits f packet ->
  treeId packet <> -1 ->
  let opened := snd (pushPacketStart packet datarate f) in
  fst (pushPacketStart packet datarate f) = Ok tt /\
  inProgressStreamId opened = treeId packet /\
  pushPacket other opened = (Throw StreamingInProgress, opened) /\
  pullPacket opened = (Throw StreamingInProgress, opened) /\
  pullPacketStart rate' opened = (Throw StreamingInProgress, opened) /\
  (treeId other <> treeId packet ->
     pushPacketStart other rate' opened = (Throw StreamingInProgress, opened) /\
     pushPacketProgress other rate' position extra opened =
       (Throw StreamingInProgress, opened) /\
     pushPacketEnd other opened = (Throw StreamingInProgress, opened)).
Proof.
  intros Hadm Htree. cbn zeta.
  destruct (pushPacketStart_admitted f packet datarate Hadm)
    as (f1 & Hrun & Hid & _).
  rewrite Hrun. cbn [fst snd].
  split; [reflexivity|]. split; [exact Hid|].
  repeat match goal with
         | |- _ /\ _ => split
         | |- _ -> _ => intros Hother
         end.
  all: unfold_ops; cbn; rewrite ?Hid.
  all: repeat (case_id; cbn); try reflexivity; congruence.
Qed.

(** X4 -- a Progress or an End that no Start preceded is accepted by an idle
    coordinator. A push Progress short of the total length opens the session
    of its packet and forwards the progress notification; a pull Progress
    short of the total length opens the session of the packet the Provider
    hands back; a pull End returns the processed packet and leaves the
    coordinator idle. *)
Theorem progress_and_end_without_start
    (f : Flow) (packet : Packet) (datarate : Rate) (position extra : Z) :
  idle f ->
  (totalLength packet <> position + extra ->
     let r := pushPacketProgress packet datarate position extra f in
     fst r = Ok tt /\
     inProgressStreamId (snd r) = treeId packet /\
     appended (trace f) (snd r) =
       [PushOrSendPacketProgress (processPacket packet) (consumer f) datarate
          position extra (transmissionId (processPacket packet))]) /\
  (forall g reply rest,
     provider f = Some g -> upstream f = reply :: rest ->
     let packet' := processPacket reply in
     (totalLength reply <> position + extra ->
        let r := pullPacketProgress datarate position extra f in
        fst r = Ok packet' /\
        inProgressStreamId (snd r) = treeId reply /\
        upstream (snd r) = rest /\
        appended (trace f) (snd r) =
          [ProviderPullPacketProgress g datarate position extra;
           AnimatePullPacketProgress packet' datarate position extra
             (transmissionId packet')]) /\
     (let r := pullPacketEnd f in
      fst r = Ok packet' /\
      idle (snd r) /\
      upstream (snd r) = rest /\
      appended (trace f) (snd r) =
        [ProviderPullPacketEnd g;
         Emit packetPulledInSignal reply;
         Emit packetPulledOutSignal packet';
         HandlePacketProcessed packet';
         AnimatePullPacketEnd packet' (transmissionId packet')])).
Proof.
  unfold idle. intros Hidle. split.
  - intros Hstep. cbn zeta. repeat split; [run | run | apply appended_app; run].
  - intros g reply rest Hg Hu. cbn zeta. repeat split.
    all: try intros Hstep.
    all: try apply appended_app.
    all: unfold_ops; cbn; rewrite Hg, Hu; cbn.
    all: repeat (case_id; cbn); rewrite <- ?app_assoc; try reflexivity; congruence.
Qed.

(** X5 -- the atomic pull on an idle coordinator with a Provider that hands
    back a packet: one call on the Provider, the hook applied once, the
    processed packet recorded, announced and returned; the coordinator is
    idle afterwards and one reply of the Provider is used up. *)
Theorem atomic_pull_run (f : Flow) (g : Gate) (reply : Packet) (rest : list Packet) :
  idle f ->
  provider f = Some g ->
  upstream f = reply :: rest ->
  let r := pullPacket f in
  let packet' := processPacket reply in
  fst r = Ok packet' /\
  idle (snd r) /\
  upstream (snd r) = rest /\
  appended (trace f) (snd r) =
    [ProviderPullPacket g;
     Emit packetPulledInSignal reply;
     HandlePacketProcessed packet';
     Emit packetPulledOutSignal packet';
     AnimatePullPacket packet'].
Proof.
  unfold idle. intros Hidle Hg Hu. cbn zeta. repeat split.
  all: try apply appended_app.
  all: unfold_ops; cbn; rewrite ?Hg, ?Hu; cbn.
  all: repeat (case_id; cbn; rewrite ?Hg, ?Hu; cbn);
       rewrite <- ?app_assoc; try reflexivity; congruence.
Qed.

Lemma pullPacketStart_idle (f : Flow) (g : Gate) (reply : Packet) (rest : list Packet)
    (datarate : Rate) :
  idle f -> provider f = Some g -> upstream f = reply :: rest ->
  exists f',
    pullPacketStart datarate f = (Ok (processPacket reply), f') /\
    inProgressStreamId f' = treeId reply /\
    provider f' = Some g /\ upstream f' = rest /\
    trace f' = trace f ++
      [ProviderPullPacketStart g datarate;
       Emit packetPulledInSignal reply;
       Emit packetPulledOutSignal (processPacket reply);
       AnimatePullPacketStart (processPacket reply) datarate
         (transmissionId (processPacket reply))].
Proof.
  unfold idle. intros Hidle Hg Hu.
  exists (snd (pullPacketStart datarate f)).
  split; [apply run_ok|]; repeat split.
  all: unfold_ops; cbn; rewrite ?Hg, ?Hu; cbn.
  all: repeat (case_id; cbn; rewrite ?Hg, ?Hu; cbn); try congruence.
  all: rewrite <- ?app_assoc; reflexivity.
Qed.

Lemma pullPacketProgress_inside (f : Flow) (g : Gate) (reply : Packet) (rest : list Packet)
    (datarate : Rate) (step : Z * Z) :
  admits f reply -> provider f = Some g -> upstream f = reply :: rest ->
  notFinal (totalLength reply) step ->
  exists f',
    pullPacketProgress datarate (fst step) (snd step) f = (Ok (processPacket reply), f') /\
    inProgressStreamId f' = treeId reply /\
    provider f' = Some g /\ upstream f' = rest /\
    trace f' = trace f ++ pullProgressCalls g datarate (step, reply).
Proof.
  unfold admits, idle, notFinal, pullProgressCalls. intros Hadm Hg Hu Hstep.
  exists (snd (pullPacketProgress datarate (fst step) (snd step) f)).
  split; [apply run_ok|]; repeat split.
  all: unfold_ops; cbn; rewrite ?Hg, ?Hu; cbn.
  all: repeat (case_id; cbn; rewrite ?Hg, ?Hu; cbn); try congruence.
  all: try (destruct Hadm; congruence).
  all: rewrite <- ?app_assoc; reflexivity.
Qed.

Lemma pullPacketEnd_inside (f : Flow) (g : Gate) (reply : Packet) (rest : list Packet) :
  admits f reply -> provider f = Some g -> upstream f = reply :: rest ->
  exists f',
    pullPacketEnd f = (Ok (processPacket reply), f') /\
    inProgressStreamId f' = -1 /\
    provider f' = Some g /\ upstream f' = rest /\
    trace f' = trace f ++
      [ProviderPullPacketEnd g;
       Emit packetPulledInSignal reply;
       Emit packetPulledOutSignal (processPacket reply);
       HandlePacketProcessed (processPacket reply);
       AnimatePullPacketEnd (processPacket reply) (transmissionId (processPacket reply))].
Proof.
  unfold admits, idle. intros Hadm Hg Hu.
  exists (snd (pullPacketEnd f)).
  split; [apply run_ok|]; repeat split.
  all: unfold_ops; cbn; rewrite ?Hg, ?Hu; cbn.
  all: repeat (case_id; cbn; rewrite ?Hg, ?Hu; cbn); try congruence.
  all: try (destruct Hadm; congruence).
  all: rewrite <- ?app_assoc; reflexivity.
Qed.

Lemma pullPacketProgresses_inside (g : Gate) (datarate : Rate) (tree : Z)
    (steps : list (Z * Z)) (middle : list Packet) :
  Forall2 (fun step reply => treeId reply = tree /\ notFinal (totalLength reply) step)
    steps middle ->
  forall (f : Flow) (rest : list Packet),
    inProgressStreamId f = tree ->
    provider f = Some g -> upstream f = middle ++ rest ->
    exists f',
      pullPacketProgresses datarate steps f = (Ok (map processPacket middle), f') /\
      inProgressStreamId f' = tree /\
      provider f' = Some g /\ upstream f' = rest /\
      trace f' = trace f ++ flat_map (pullProgressCalls g datarate) (combine steps middle).
Proof.
  induction 1 as [|step reply steps middle [Htree Hstep] _ IH]; intros f rest Hid Hg Hu.
  - exists f. cbn. rewrite app_nil_r. repeat split; auto.
  - cbn [app] in Hu.
    assert (Hadm : admits f reply) by (right; congruence).
    destruct (pullPacketProgress_inside f g reply (middle ++ rest) datarate step
                Hadm Hg Hu Hstep) as (f1 & Hrun1 & Hid1 & Hg1 & Hu1 & Ht1).
    destruct (IH f1 rest (eq_trans Hid1 Htree) Hg1 Hu1)
      as (f2 & Hrun2 & Hid2 & Hg2 & Hu2 & Ht2).
    exists f2. split.
    + destruct step as [position extra]. cbn [pullPacketProgresses]. cbn [fst snd] in Hrun1.
      rewrite (bind_ok _ _ _ _ _ Hrun1), (bind_ok _ _ _ _ _ Hrun2). reflexivity.
    + repeat split; auto.
      rewrite Ht2, Ht1. cbn [combine flat_map]. rewrite <- app_assoc. reflexivity.
Qed.

(** X6 -- a whole streamed pull. On an idle coordinator whose Provider will
    hand back packets of one tree, Start followed by any number of Progress
    calls that do not reach the total length and by End succeeds: the
    Collector is handed each packet of the Provider processed by the hook,
    in order; the Provider is called once per call and as many replies are
    used up; only the last packet is recorded as processed; the coordinator
    is idle afterwards. *)
Theorem streamed_pull_run
    (f : Flow) (g : Gate) (datarate : Rate) (steps : list (Z * Z))
    (first last : Packet) (middle rest : list Packet) :
  idle f ->
  provider f = Some g ->
  upstream f = first :: middle ++ last :: rest ->
  Forall2 (fun step reply =>
             treeId reply = treeId first /\ notFinal (totalLength reply) step)
    steps middle ->
  treeId last = treeId first ->
  let r := pullStream datarate steps f in
  fst r = Ok (map processPacket (first :: middle ++ [last])) /\
  idle (snd r) /\
  upstream (snd r) = rest /\
  appended (trace f) (snd r) =
    [ProviderPullPacketStart g datarate;
     Emit packetPulledInSignal first;
     Emit packetPulledOutSignal (processPacket first);
     AnimatePullPacketStart (processPacket first) datarate
       (transmissionId (processPacket first))] ++
    flat_map (pullProgressCalls g datarate) (combine steps middle) ++
    [ProviderPullPacketEnd g;
     Emit packetPulledInSignal last;
     Emit packetPulledOutSignal (processPacket last);
     HandlePacketProcessed (processPacket last);
     AnimatePullPacketEnd (processPacket last) (transmissionId (processPacket last))].
Proof.
  intros Hidle Hg Hu Hmiddle Hlast. cbn zeta.
  destruct (pullPacketStart_idle f g first (middle ++ last :: rest) datarate Hidle Hg Hu)
    as (f1 & Hrun1 & Hid1 & Hg1 & Hu1 & Ht1).
  destruct (pullPacketProgresses_inside g datarate (treeId first) steps middle Hmiddle
              f1 (last :: rest) Hid1 Hg1 Hu1)
    as (f2 & Hrun2 & Hid2 & Hg2 & Hu2 & Ht2).
  assert (Hadm : admits f2 last) by (right; congruence).
  destruct (pullPacketEnd_inside f2 g last rest Hadm Hg2 Hu2)
    as (f3 & Hrun3 & Hid3 & Hg3 & Hu3 & Ht3).
  assert (Hrun : pullStream datarate steps f =
                   (Ok (map processPacket (first :: middle ++ [last])), f3)).
  { unfold pullStream.
    rewrite (bind_ok _ _ _ _ _ Hrun1), (bind_ok _ _ _ _ _ Hrun2), (bind_ok _ _ _ _ _ Hrun3).
    cbn [map]. rewrite map_app. reflexivity. }
  rewrite Hrun. cbn [fst snd].
  repeat split; auto.
  apply appended_app.
  rewrite Ht3, Ht2, Ht1, <- !app_assoc. reflexivity.
Qed.

Lemma skipn_exact {A : Type} (l l' : list A) : skipn (length l) (l ++ l') = l'.
Proof. induction l as [|a l IH]; cbn; [reflexivity | exact IH]. Qed.

Ltac appended_eval :=
  unfold appended; cbn; rewrite <- ?app_assoc;
  first [rewrite skipn_exact | rewrite skipn_all]; reflexivity.

(** X7 -- the two directions are kept apart. The push operations and the
    four notification handlers never call the Provider nor use up one of its
    replies; the pull operations never forward anything to the Consumer.
    This holds whether the operation succeeds or fails. *)
Theorem push_and_pull_sides_are_separate
    (f : Flow) (packet : Packet) (datarate : Rate) (position extra : Z)
    (successful : bool) :
  leavesProviderAlone f (pushPacket packet f) /\
  leavesProviderAlone f (pushPacketStart packet datarate f) /\
  leavesProviderAlone f (pushPacketProgress packet datarate position extra f) /\
  leavesProviderAlone f (pushPacketEnd packet f) /\
  leavesProviderAlone f (handleCanPushPacketChanged f) /\
  leavesProviderAlone f (handlePushPacketProcessed packet successful f) /\
  leavesProviderAlone f (handleCanPullPacketChanged f) /\
  leavesProviderAlone f (handlePullPacketProcessed packet successful f) /\
  forwardsNothing f (pullPacket f) /\
  forwardsNothing f (pullPacketStart datarate f) /\
  forwardsNothing f (pullPacketProgress datarate position extra f) /\
  forwardsNothing f (pullPacketEnd f).
Proof.
  unfold leavesProviderAlone, forwardsNothing.
  repeat match goal with |- _ /\ _ => split end.
  all: unfold_ops; cbn.
  all: repeat first
         [ case_id; cbn
         | match goal with
           | |- context [match producer ?x with _ => _ end] => destruct (producer x); cbn
           | |- context [match collector ?x with _ => _ end] => destruct (collector x); cbn
           | |- context [match provider ?x with _ => _ end] => destruct (provider x); cbn
           | |- context [match upstream ?x with _ => _ end] => destruct (upstream x); cbn
           end ].
  all: try reflexivity.
  all: appended_eval.
Qed.


(** X9 -- an acknowledgment lifts the guard. After a push Start, the
    push-processed acknowledgment from downstream closes the session although
    no End has been pushed, whatever packet it names; an atomic push of any
    packet is then accepted and forwarded. *)
Theorem acknowledgment_lifts_the_guard
    (f : Flow) (packet acknowledged other : Packet) (datarate : Rate) (successful : bool) :
  admits f packet ->
  let r := (pushPacketStart packet datarate ;;
            handlePushPacketProcessed acknowledged successful ;;
            pushPacket other) f in
  fst r = Ok tt /\
  idle (snd r) /\
  appended (trace f) (snd r) =
    [Emit packetPushedInSignal packet;
     PushOrSendPacketStart (processPacket packet) (consumer f) datarate
       (transmissionId (processPacket packet));
     HandlePacketProcessed acknowledged] ++
    match producer f with
    | Some g => [ProducerHandlePushPacketProcessed acknowledged g successful]
    | None => []
    end ++
    [Emit packetPushedInSignal other;
     HandlePacketProcessed (processPacket other);
     Emit packetPushedOutSignal (processPacket other);
     PushOrSendPacket (processPacket other) (consumer f)].
Proof.
  unfold admits, idle. intros Hadm. cbn zeta.
  repeat split.
  all: try apply appended_app.
  all: unfold_ops; cbn.
  all: repeat (case_id; cbn).
  all: try (destruct Hadm; congruence).
  all: destruct (producer f); cbn; repeat (case_id; cbn);
       rewrite <- ?app_assoc; try reflexivity; try congruence.
Qed.

End Operations.

(** *** Concrete runs *)

Example pushPacket_idle_run :
  pushPacket prependHeader packet7 (coordinator (-1) []) =
    (Ok tt,
     mkFlow (-1) (Some 1) (Some 2) (Some 3) (Some 4) []
       [Emit packetPushedInSignal packet7;
        HandlePacketProcessed (prependHeader packet7);
        Emit packetPushedOutSignal (prependHeader packet7);
        PushOrSendPacket (prependHeader packet7) (Some 2)]).
Proof. reflexivity. Qed.

Example pushPacketStart_other_tree_run :
  pushPacketStart prependHeader packet8 rate10 (coordinator 7 []) =
    (Throw StreamingInProgress, coordinator 7 []).
Proof. reflexivity. Qed.

Example pullPacketEnd_run :
  pullPacketEnd prependHeader (coordinator 7 [packet7]) =
    (Ok (prependHeader packet7),
     mkFlow (-1) (Some 1) (Some 2) (Some 3) (Some 4) []
       [ProviderPullPacketEnd 3;
        Emit packetPulledInSignal packet7;
        Emit packetPulledOutSignal (prependHeader packet7);
        HandlePacketProcessed (prependHeader packet7);
        AnimatePullPacketEnd (prependHeader packet7) 70]).
Proof. reflexivity. Qed.

(** C1, counterexample -- [pullPacketStart] is a streaming Start, the
    session open is that of tree 7 and the packet the Provider is about to
    hand back belongs to tree 7 as well; the call fails all the same,
    because its check is made with no candidate. The push-start of that
    packet on the same session does not fail. *)
Lemma pullPacketStart_rejects_matching_session :
  let f := coordinator 7 [packet7] in
  hd_error (upstream f) = Some packet7 /\
  treeId packet7 = inProgressStreamId f /\
  failed (pullPacketStart prependHeader rate10 f) = Some StreamingInProgress /\
  failed (pushPacketStart prependHeader packet7 rate10 f) = None.
Proof. cbn. repeat split. Qed.

(** The rule at work: the session of tree 7 is open and the Provider hands
    back a packet of tree 8 at the pull-end. *)
Lemma streaming_error_iff_rejected_witness :
  let f := coordinator 7 [packet8] in
  rejects f (Some packet8) /\
  failed (pullPacketEnd prependHeader f) = Some StreamingInProgress.
Proof.
  cbn zeta.
  assert (Hrej : rejects (coordinator 7 [packet8]) (Some packet8)).
  { split; cbn; discriminate. }
  split; [exact Hrej|].
  destruct (streaming_error_iff_rejected prependHeader (coordinator 7 [packet8])
              packet8 rate10 0 0) as (_ & _ & _ & _ & _ & _ & Hpull).
  destruct (Hpull 3 packet8 [] eq_refl eq_refl) as [Hend _].
  apply Hend. exact Hrej.
Defined.

(** C6, counterexample -- [pullPacketEnd] on the session of tree 7 when the
    Provider hands back a packet of tree 8: the check fails, and by then the
    packet has been pulled from the Provider. *)
Lemma pullPacketEnd_pulls_before_check :
  let f := coordinator 7 [packet8] in
  let r := pullPacketEnd prependHeader f in
  failed r = Some StreamingInProgress /\
  upstream f = [packet8] /\ upstream (snd r) = [] /\
  trace f = [] /\ trace (snd r) = [ProviderPullPacketEnd 3].
Proof. cbn. repeat split. Qed.

(** The same coordinator: the aborted push and pull-start leave it as it
    was, the aborted pull-end leaves the session of tree 7 open. *)
Lemma aborted_operation_effects_witness :
  let f := coordinator 7 [packet8] in
  snd (pushPacket prependHeader packet8 f) = f /\
  snd (pullPacketStart prependHeader rate10 f) = f /\
  inProgressStreamId (snd (pullPacketEnd prependHeader f)) = 7.
Proof.
  cbn zeta.
  destruct (aborted_operation_effects prependHeader (coordinator 7 [packet8])
              packet8 rate10 0 0)
    as (Hpush & _ & _ & _ & _ & Hstart & Hend & _).
  split; [apply Hpush; reflexivity|].
  split; [apply Hstart; reflexivity|].
  destruct (Hend eq_refl) as (g & reply & rest & _ & _ & Hid & _).
  rewrite Hid. reflexivity.
Defined.

(** C4, counterexample -- [pullPacketProgress] inside the session of tree 7
    with [position + extra] equal to the total length 100: the session is
    closed, yet no end notification is among the calls made; the progress
    notification is. *)
Lemma pullPacketProgress_end_forwards_progress :
  let f := coordinator 7 [packet7] in
  let r := pullPacketProgress prependHeader rate10 60 40 f in
  treeId packet7 = inProgressStreamId f /\
  totalLength packet7 = 60 + 40 /\
  failed r = None /\ idle (snd r) /\
  existsb isEndNotification (trace (snd r)) = false /\
  existsb isProgressNotification (trace (snd r)) = true.
Proof. cbn. repeat split. Qed.

(** Progress to 100 of 100 bits closes the session of tree 7, progress to
    40 of 100 bits keeps it open, for push and for pull. *)
Lemma progress_reaching_total_length_witness :
  let f := coordinator 7 [packet7] in
  idle (snd (pushPacketProgress prependHeader packet7 rate10 60 40 f)) /\
  inProgressStreamId (snd (pushPacketProgress prependHeader packet7 rate10 0 40 f)) = 7 /\
  idle (snd (pullPacketProgress prependHeader rate10 60 40 f)) /\
  inProgressStreamId (snd (pullPacketProgress prependHeader rate10 0 40 f)) = 7.
Proof.
  cbn zeta.
  assert (Hopen : sessionOpen (coordinator 7 [packet7])) by (cbn; discriminate).
  destruct (progress_reaching_total_length prependHeader (coordinator 7 [packet7])
              packet7 rate10 60 40) as [Hpush Hpull].
  destruct (Hpush Hopen eq_refl) as (_ & Hend & _).
  destruct (Hpull 3 packet7 [] eq_refl eq_refl Hopen eq_refl) as (_ & Hend' & _).
  destruct (progress_reaching_total_length prependHeader (coordinator 7 [packet7])
              packet7 rate10 0 40) as [Hpush0 Hpull0].
  destruct (Hpush0 Hopen eq_refl) as (_ & _ & Hmid).
  destruct (Hpull0 3 packet7 [] eq_refl eq_refl Hopen eq_refl) as (_ & _ & Hmid').
  split; [apply Hend; reflexivity|].
  split; [apply Hmid; discriminate|].
  split; [apply Hend'; reflexivity|].
  apply Hmid'; discriminate.
Defined.

(** On the idle coordinator the two ways of pushing [packet7] deliver the
    same packets. *)
Lemma pushPacket_as_start_then_end_witness :
  let f := coordinator (-1) [] in
  idle f /\
  delivered (appended (trace f) (snd (pushPacket prependHeader packet7 f))) =
  delivered (appended (trace f)
    (snd ((pushPacketStart prependHeader packet7 rate10 ;;
           pushPacketEnd prependHeader packet7) f))).
Proof.
  cbn zeta. split; [reflexivity|].
  destruct (pushPacket_as_start_then_end prependHeader (coordinator (-1) [])
              packet7 rate10 eq_refl) as (_ & _ & Ha & Hs & _).
  rewrite Ha, Hs. reflexivity.
Defined.

(** A push-end on the idle coordinator succeeds and leaves it idle; a
    push-end of tree 8 on the session of tree 7 fails. *)
Lemma pushPacketEnd_closes_session_witness :
  idle (coordinator (-1) []) /\
  failed (pushPacketEnd prependHeader packet7 (coordinator (-1) [])) = None /\
  idle (snd (pushPacketEnd prependHeader packet7 (coordinator (-1) []))) /\
  sessionOpen (coordinator 7 []) /\
  failed (pushPacketEnd prependHeader packet8 (coordinator 7 [])) =
    Some StreamingInProgress.
Proof.
  destruct (pushPacketEnd_closes_session prependHeader (coordinator (-1) []) packet7)
    as (Hidle & _ & Hok).
  destruct (pushPacketEnd_closes_session prependHeader (coordinator 7 []) packet8)
    as (_ & Hbad & _).
  destruct (Hidle eq_refl) as [Hnone _].
  split; [reflexivity|].
  split; [exact Hnone|].
  split; [exact (proj1 (Hok Hnone))|].
  assert (Hopen : sessionOpen (coordinator 7 [])) by (cbn; discriminate).
  split; [exact Hopen|].
  apply Hbad; [exact Hopen | cbn; discriminate].
Defined.

(** With Producer and Collector bound, one call each; without them, no
    change at all. *)
Lemma capability_change_is_relayed_once_witness :
  trace (snd (handleCanPushPacketChanged (coordinator (-1) []))) =
    [ProducerHandleCanPushPacketChanged 1] /\
  handleCanPushPacketChanged (unattended (-1)) = (Ok tt, unattended (-1)) /\
  trace (snd (handleCanPullPacketChanged (coordinator (-1) []))) =
    [CollectorHandleCanPullPacketChanged 4] /\
  handleCanPullPacketChanged (unattended (-1)) = (Ok tt, unattended (-1)).
Proof.
  destruct (capability_change_is_relayed_once (coordinator (-1) []))
    as (Hp & _ & Hc & _).
  destruct (capability_change_is_relayed_once (unattended (-1)))
    as (_ & Hnp & _ & Hnc).
  rewrite (Hp 1 eq_refl), (Hc 4 eq_refl).
  split; [reflexivity|].
  split; [exact (Hnp eq_refl)|].
  split; [reflexivity|].
  exact (Hnc eq_refl).
Defined.

(** *** Concrete runs of the composed operations *)

(** Tree 7 streamed in three pieces, 40 + 30 + 30 bits, into the idle
    coordinator. *)
Lemma streamed_push_run_witness :
  let r := pushStream prependHeader packet7 rate10 [(0, 40); (40, 30)]
             (coordinator (-1) []) in
  fst r = Ok tt /\ idle (snd r) /\
  delivered (trace (snd r)) = [prependHeader packet7].
Proof.
  cbn zeta.
  assert (Hsteps : Forall (notFinal (totalLength packet7)) [(0, 40); (40, 30)]).
  { repeat constructor; unfold notFinal; cbn; lia. }
  destruct (streamed_push_run prependHeader (coordinator (-1) []) packet7 rate10
              [(0, 40); (40, 30)] (or_introl eq_refl) Hsteps)
    as (Hok & Hidle & _ & _).
  split; [exact Hok|]. split; [exact Hidle|]. reflexivity.
Defined.

(** Inside the session of tree 7, the Progress from 60 by 40 reaches 100;
    the End that follows is accepted. *)
Lemma end_after_final_progress_ends_twice_witness :
  let r := (pushPacketProgress prependHeader packet7 rate10 60 40 ;;
            pushPacketEnd prependHeader packet7) (coordinator 7 []) in
  fst r = Ok tt /\
  delivered (trace (snd r)) = [prependHeader packet7; prependHeader packet7].
Proof.
  cbn zeta.
  destruct (end_after_final_progress_ends_twice prependHeader (coordinator 7 [])
              packet7 rate10 60 40 (or_intror eq_refl) eq_refl)
    as (Hok & _ & _).
  split; [exact Hok | reflexivity].
Defined.

(** With tree 7 started, a push of tree 8 and a pull are both rejected. *)
Lemma open_stream_excludes_other_transfers_witness :
  let opened := snd (pushPacketStart prependHeader packet7 rate10 (coordinator (-1) [packet8])) in
  inProgressStreamId opened = 7 /\
  failed (pushPacket prependHeader packet8 opened) = Some StreamingInProgress /\
  failed (pullPacket prependHeader opened) = Some StreamingInProgress /\
  failed (pushPacketEnd prependHeader packet8 opened) = Some StreamingInProgress.
Proof.
  cbn zeta.
  assert (Htree : treeId packet7 <> -1) by (cbn; lia).
  assert (Hother : treeId packet8 <> treeId packet7) by (cbn; lia).
  destruct (open_stream_excludes_other_transfers prependHeader (coordinator (-1) [packet8])
              packet7 packet8 rate10 rate10 0 40 (or_introl eq_refl) Htree)
    as (_ & Hid & Hpush & Hpull & _ & Hrest).
  destruct (Hrest Hother) as (_ & _ & Hend).
  split; [exact Hid|].
  rewrite Hpush, Hpull, Hend. repeat split.
Defined.

(** No Start before: the idle coordinator accepts the pull Progress and
    opens the session of tree 7; it accepts the pull End and stays idle. *)
Lemma progress_and_end_without_start_witness :
  let f := coordinator (-1) [packet7] in
  inProgressStreamId (snd (pullPacketProgress prependHeader rate10 0 40 f)) = 7 /\
  inProgressStreamId (snd (pushPacketProgress prependHeader packet7 rate10 0 40 f)) = 7 /\
  fst (pullPacketEnd prependHeader f) = Ok (prependHeader packet7) /\
  idle (snd (pullPacketEnd prependHeader f)).
Proof.
  cbn zeta.
  destruct (progress_and_end_without_start prependHeader (coordinator (-1) [packet7])
              packet7 rate10 0 40 eq_refl) as [Hpush Hpull].
  assert (Hstep : totalLength packet7 <> 0 + 40) by (cbn; lia).
  destruct (Hpush Hstep) as (_ & Hid & _).
  destruct (Hpull 3 packet7 [] eq_refl eq_refl) as [Hprogress Hend].
  destruct (Hprogress Hstep) as (_ & Hid' & _).
  destruct Hend as (Hok & Hidle & _).
  split; [exact Hid'|]. split; [exact Hid|]. split; [exact Hok | exact Hidle].
Defined.

(** The atomic pull of [packet7] from the idle coordinator. *)
Lemma atomic_pull_run_witness :
  let r := pullPacket prependHeader (coordinator (-1) [packet7; packet8]) in
  fst r = Ok (prependHeader packet7) /\ idle (snd r) /\ upstream (snd r) = [packet8].
Proof.
  cbn zeta.
  destruct (atomic_pull_run prependHeader (coordinator (-1) [packet7; packet8]) 3 packet7
              [packet8] eq_refl eq_refl eq_refl) as (Hok & Hidle & Hrest & _).
  split; [exact Hok|]. split; [exact Hidle | exact Hrest].
Defined.

(** Tree 7 pulled as Start, one Progress and End; a packet of tree 8 is
    left with the Provider. *)
Lemma streamed_pull_run_witness :
  let r := pullStream prependHeader rate10 [(0, 40)]
             (coordinator (-1) [packet7; packet7; packet7; packet8]) in
  fst r = Ok [prependHeader packet7; prependHeader packet7; prependHeader packet7] /\
  idle (snd r) /\ upstream (snd r) = [packet8].
Proof.
  cbn zeta.
  assert (Hmiddle :
    Forall2 (fun step reply =>
               treeId reply = treeId packet7 /\ notFinal (totalLength reply) step)
      [(0, 40)] [packet7]).
  { repeat constructor. unfold notFinal; cbn; lia. }
  destruct (streamed_pull_run prependHeader
              (coordinator (-1) [packet7; packet7; packet7; packet8]) 3 rate10 [(0, 40)]
              packet7 packet7 [packet7] [packet8] eq_refl eq_refl eq_refl Hmiddle eq_refl)
    as (Hok & Hidle & Hrest & _).
  split; [exact Hok|]. split; [exact Hidle | exact Hrest].
Defined.


(** Tree 7 is started, downstream acknowledges a packet of tree 8, and the
    atomic push of tree 8 goes through. *)
Lemma acknowledgment_lifts_the_guard_witness :
  let r := (pushPacketStart prependHeader packet7 rate10 ;;
            handlePushPacketProcessed packet8 true ;;
            pushPacket prependHeader packet8) (coordinator (-1) []) in
  fst r = Ok tt /\ idle (snd r).
Proof.
  cbn zeta.
  destruct (acknowledgment_lifts_the_guard prependHeader (coordinator (-1) [])
              packet7 packet8 packet8 rate10 true (or_introl eq_refl))
    as (Hok & Hidle & _).
  split; [exact Hok | exact Hidle].
Defined.

End PacketFlowBase.

(** ** The rate-limited preempting server *)

Module PreemptingServer.

Local Open Scope Q_scope.

(** Rationals are kept in lowest terms, so that equal times are equal terms. *)
Definition after (t delay : Time) : Time := Qred (t + delay).

(** [s(totalLength / datarate).get()]: the time [length] bits take at
    [datarate] bits per second. *)
Definition transmissionTime (length : Z) (datarate : Rate) : Time :=
  Qred (inject_Z length / datarate).

Inductive Event : Type :=
| ProviderPullPacketStart (g : Gate) (datarate : Rate)
| ProviderPullPacketEnd (g : Gate)
| PushOrSendPacketStart (p : Packet) (consumer : option Gate) (datarate : Rate) (tid : Z)
| PushOrSendPacketEnd (p : Packet) (consumer : option Gate) (tid : Z)
| ScheduleClockEventAfter (delay : Time)
| CancelClockEvent
| HandlePacketProcessed (p : Packet)
| Delete (p : Packet).

(** The object and its surroundings. [timer] holds the time at which the
    scheduled timer message is due, [None] when it is not scheduled; [now]
    is the clock. [providerCanPullSomePacket] and [consumerCanPushSomePacket]
    are what the neighbours answer at present, [upstream] what the Provider
    hands back at its next calls. Every event is stamped with the time of
    the call. *)
Record Server : Type := mkServer {
  datarate : Rate;
  streamedPacket : option Packet;
  timer : option Time;
  now : Time;
  provider : option Gate;
  consumer : option Gate;
  providerCanPullSomePacket : bool;
  consumerCanPushSomePacket : bool;
  upstream : list Packet;
  trace : list (Time * Event)
}.

Definition set_streamedPacket (p : option Packet) (s : Server) : Server :=
  mkServer (datarate s) p (timer s) (now s) (provider s) (consumer s)
    (providerCanPullSomePacket s) (consumerCanPushSomePacket s) (upstream s) (trace s).

Definition set_timer (t : option Time) (s : Server) : Server :=
  mkServer (datarate s) (streamedPacket s) t (now s) (provider s) (consumer s)
    (providerCanPullSomePacket s) (consumerCanPushSomePacket s) (upstream s) (trace s).

Definition set_now (t : Time) (s : Server) : Server :=
  mkServer (datarate s) (streamedPacket s) (timer s) t (provider s) (consumer s)
    (providerCanPullSomePacket s) (consumerCanPushSomePacket s) (upstream s) (trace s).

Definition set_upstream (u : list Packet) (s : Server) : Server :=
  mkServer (datarate s) (streamedPacket s) (timer s) (now s) (provider s) (consumer s)
    (providerCanPullSomePacket s) (consumerCanPushSomePacket s) u (trace s).

Definition add_event (e : Event) (s : Server) : Server :=
  mkServer (datarate s) (streamedPacket s) (timer s) (now s) (provider s) (consumer s)
    (providerCanPullSomePacket s) (consumerCanPushSomePacket s) (upstream s)
    (trace s ++ [(now s, e)]).

Definition call (e : Event) : M Server unit := modify (add_event e).

Definition take (packet : option Packet) : M Server Packet :=
  match packet with
  | Some p => ret p
  | None => throw NullPacket
  end.

(** [delete packet]; deleting nullptr does nothing. *)
Definition delete (packet : option Packet) : M Server unit :=
  match packet with
  | Some p => call (Delete p)
  | None => ret tt
  end.

(** Modelled from the spec: [handlePacketProcessed] of the base class
    PacketProcessorBase, whose definition is not among the sources; the
    packet is reported as processed. *)
Definition handlePacketProcessed (p : Packet) : M Server unit :=
  call (HandlePacketProcessed p).

(** Modelled from the spec: [isStreaming], declared in the header that is
    not among the sources; [streamedPacket] is non-null iff Streaming. *)
Definition isStreaming (s : Server) : bool :=
  match streamedPacket s with
  | Some _ => true
  | None => false
  end.

(** Modelled from the spec: [scheduleClockEventAfter] and [cancelClockEvent]
    of the clock mixin, not among the sources; "schedule a callback after
    duration D" and "cancel a scheduled callback". *)
Definition scheduleClockEventAfter (delay : Time) : M Server unit :=
  call (ScheduleClockEventAfter delay) ;;
  s <- get ;;
  modify (set_timer (Some (after (now s) delay))).

Definition cancelClockEvent : M Server unit :=
  call CancelClockEvent ;;
  modify (set_timer None).

(** Modelled from the spec: dereferencing a neighbour reference (class
    ModuleRefByGate, not among the sources); a missing binding is fatal. *)
Definition provider_call (request : Gate -> Event) : M Server (option Packet) :=
  s <- get ;;
  match provider s with
  | None => throw UnboundReference
  | Some g =>
      call (request g) ;;
      match upstream s with
      | [] => ret None
      | p :: rest => modify (set_upstream rest) ;; ret (Some p)
      end
  end.

(** *** Reading the state *)

Definition appended (before : list (Time * Event)) (s : Server) : list (Time * Event) :=
  skipn (length before) (trace s).

(** *** Concrete data: 100 bits at 10 bits per tick *)

(** A duplicate agrees with the original on everything modelled. *)
Definition copy (p : Packet) : Packet := p.

Definition started : Packet := mkPacket 7 70 100 [1; 2; 3]%Z.
Definition ended : Packet := mkPacket 7 71 100 [1; 2; 3]%Z.

(** Idle at tick 0, both neighbours bound and ready; the Provider will hand
    back [started] at the pull-start and [ended] at the pull-end. *)
Definition server0 : Server :=
  mkServer (10 # 1) None None 0 (Some 1%Z) (Some 2%Z) true true [started; ended] [].

(** Streaming since tick 0 with the timer due at tick 10, seen at tick 4. *)
Definition server4 : Server :=
  mkServer (10 # 1) (Some started) (Some 10) 4 (Some 1%Z) (Some 2%Z) true true [ended]
    [(0, ProviderPullPacketStart 1%Z (10 # 1));
     (0, PushOrSendPacketStart started (Some 2%Z) (10 # 1) 70);
     (0, ScheduleClockEventAfter 10);
     (0, HandlePacketProcessed started)].

(** *** Operations *)

Section Operations.

(** [Packet::dup], the copy constructor of a class that is not among the
    sources. *)
Variable dup : Packet -> Packet.

Definition canStartStreaming : M Server bool :=
  s <- get ;;
  match provider s with
  | None => throw UnboundReference
  | Some _ =>
      if providerCanPullSomePacket s then
        match consumer s with
        | None => throw UnboundReference
        | Some _ => ret (consumerCanPushSomePacket s)
        end
      else ret false
  end.

Definition startStreaming : M Server unit :=
  s <- get ;;
  reply <- provider_call (fun g => ProviderPullPacketStart g (datarate s)) ;;
  packet <- take reply ;;
  modify (set_streamedPacket (Some packet)) ;;
  call (PushOrSendPacketStart (dup packet) (consumer s) (datarate s)
          (transmissionId packet)) ;;
  scheduleClockEventAfter (transmissionTime (totalLength packet) (datarate s)) ;;
  handlePacketProcessed packet.

Definition endStreaming : M Server unit :=
  reply <- provider_call ProviderPullPacketEnd ;;
  packet <- take reply ;;
  s <- get ;;
  delete (streamedPacket s) ;;
  modify (set_streamedPacket (Some packet)) ;;
  call (PushOrSendPacketEnd packet (consumer s) (transmissionId packet)) ;;
  modify (set_streamedPacket None).

(** [handleMessage] on the self-message [timer]. Any other message is
    passed to PacketServerBase, which is not among the sources. *)
Definition handleMessage_timer : M Server unit := endStreaming.

Definition handleCanPushPacketChanged : M Server unit :=
  s <- get ;;
  if negb (isStreaming s) then
    can <- canStartStreaming ;;
    if can then startStreaming else ret tt
  else ret tt.

Definition handleCanPullPacketChanged : M Server unit :=
  s <- get ;;
  if isStreaming s then
    endStreaming ;;
    cancelClockEvent
  else
    can <- canStartStreaming ;;
    if can then startStreaming else ret tt.

Definition handlePushPacketProcessed (packet : Packet) (successful : bool) : M Server unit :=
  s <- get ;;
  if isStreaming s then
    delete (streamedPacket s) ;;
    reply <- provider_call ProviderPullPacketEnd ;;
    modify (set_streamedPacket reply) ;;
    _ <- take reply ;;
    s <- get ;;
    delete (streamedPacket s) ;;
    modify (set_streamedPacket None)
  else ret tt.

(** Modelled from the spec: the event loop of the simulation kernel, not
    among the sources. The clock moves to [t]; a timer that is scheduled and
    due by then is delivered at its due time, and is no longer scheduled
    when its handler runs. A timer that is not scheduled delivers nothing. *)
Definition advanceTo (t : Time) : M Server unit :=
  s <- get ;;
  match timer s with
  | Some due =>
      if Qle_bool due t then
        modify (set_now due) ;;
        modify (set_timer None) ;;
        handleMessage_timer ;;
        modify (set_now t)
      else modify (set_now t)
  | None => modify (set_now t)
  end.

Fixpoint advanceThrough (ts : list Time) : M Server unit :=
  match ts with
  | [] => ret tt
  | t :: ts' => advanceTo t ;; advanceThrough ts'
  end.


(** The state [startStreaming] reaches when the Provider hands back
    [packet] and has [rest] left, and the calls it makes on the way. *)
Definition startCalls (s : Server) (g : Gate) (packet : Packet) : list (Time * Event) :=
  [(now s, ProviderPullPacketStart g (datarate s));
   (now s, PushOrSendPacketStart (dup packet) (consumer s) (datarate s)
             (transmissionId packet));
   (now s, ScheduleClockEventAfter (transmissionTime (totalLength packet) (datarate s)));
   (now s, HandlePacketProcessed packet)].

(** The calls [endStreaming] makes at time [t] when [old] is streamed and
    the Provider hands back [finalized]. *)
Definition endCalls (s : Server) (t : Time) (g : Gate) (old : option Packet)
    (finalized : Packet) : list (Time * Event) :=
  (t, ProviderPullPacketEnd g) ::
  match old with
  | Some p => [(t, Delete p)]
  | None => []
  end ++
  [(t, PushOrSendPacketEnd finalized (consumer s) (transmissionId finalized))].

(** *** Proof tools *)

Ltac unfold_server :=
  cbv [handleCanPushPacketChanged handleCanPullPacketChanged
       handlePushPacketProcessed handleMessage_timer advanceTo
       canStartStreaming startStreaming endStreaming
       scheduleClockEventAfter cancelClockEvent handlePacketProcessed
       provider_call delete take call isStreaming
       bind ret throw get modify failed].

Lemma appended_trace (before new : list (Time * Event)) (s : Server) :
  trace s = before ++ new -> appended before s = new.
Proof.
  intros H. unfold appended. rewrite H. clear H.
  induction before as [|e before IH]; cbn; [reflexivity | exact IH].
Qed.

Ltac server_trace :=
  apply appended_trace; cbn; rewrite <- ?app_assoc; reflexivity.

Lemma advanceTo_unscheduled (t : Time) (s : Server) :
  timer s = None -> advanceTo t s = (Ok tt, set_now t s).
Proof. intros H. unfold_server. rewrite H. reflexivity. Qed.

(** While the timer is not scheduled, the passing of time delivers nothing:
    no call is made and the server stays as it is, clock apart. *)
Lemma advanceThrough_unscheduled (ts : list Time) :
  forall s : Server,
    timer s = None ->
    fst (advanceThrough ts s) = Ok tt /\
    trace (snd (advanceThrough ts s)) = trace s /\
    timer (snd (advanceThrough ts s)) = None /\
    streamedPacket (snd (advanceThrough ts s)) = streamedPacket s.
Proof.
  induction ts as [|t ts IH]; intros s Hs.
  - cbn. auto.
  - assert (Hstep : advanceThrough (t :: ts) s = advanceThrough ts (set_now t s)).
    { cbn [advanceThrough]. unfold bind at 1.
      rewrite (advanceTo_unscheduled t s Hs). reflexivity. }
    rewrite Hstep. exact (IH (set_now t s) Hs).
Qed.

(** *** Properties *)

(** C5 -- an idle server whose neighbours allow streaming: both
    notifications start streaming, and starting means four calls in this
    order -- pull-start from the Provider at the configured rate, push-start
    of the duplicate downstream at the same rate, scheduling of the timer
    [totalLength / datarate] ahead, report of the pulled packet as
    processed -- after which [streamedPacket] is the pulled packet. The
    rate is positive and the length is not negative, as they are for a
    transfer that takes a time. *)
Theorem idle_to_streaming_actions
    (s : Server) (g : Gate) (packet : Packet) (rest : list Packet) :
  streamedPacket s = None ->
  canStartStreaming s = (Ok true, s) ->
  provider s = Some g ->
  upstream s = packet :: rest ->
  0 < datarate s ->
  (0 <= totalLength packet)%Z ->
  let r := startStreaming s in
  let delay := transmissionTime (totalLength packet) (datarate s) in
  handleCanPushPacketChanged s = r /\
  handleCanPullPacketChanged s = r /\
  fst r = Ok tt /\
  streamedPacket (snd r) = Some packet /\
  delay == inject_Z (totalLength packet) / datarate s /\
  timer (snd r) = Some (after (now s) delay) /\
  now (snd r) = now s /\
  upstream (snd r) = rest /\
  appended (trace s) (snd r) =
    [(now s, ProviderPullPacketStart g (datarate s));
     (now s, PushOrSendPacketStart (dup packet) (consumer s) (datarate s)
               (transmissionId packet));
     (now s, ScheduleClockEventAfter delay);
     (now s, HandlePacketProcessed packet)].
Proof.
  intros Hidle Hcan Hg Hu Hrate Hlength. cbn zeta.
  repeat match goal with |- _ /\ _ => split end.
  - unfold handleCanPushPacketChanged, isStreaming, bind at 1, get.
    rewrite Hidle. cbn. unfold bind at 1. rewrite Hcan. reflexivity.
  - unfold handleCanPullPacketChanged, isStreaming, bind at 1, get.
    rewrite Hidle. cbn. unfold bind at 1. rewrite Hcan. reflexivity.
  - unfold_server. cbn. rewrite Hg, Hu. reflexivity.
  - unfold_server. cbn. rewrite Hg, Hu. reflexivity.
  - unfold transmissionTime. apply Qred_correct.
  - unfold_server. cbn. rewrite Hg, Hu. reflexivity.
  - unfold_server. cbn. rewrite Hg, Hu. reflexivity.
  - unfold_server. cbn. rewrite Hg, Hu. reflexivity.
  - unfold_server. cbn. rewrite Hg, Hu. cbn. server_trace.
Qed.

(** C3 -- a streaming server notified of a pull-capability change: it
    pull-ends from the Provider, discards the streamed copy, push-ends the
    finalized packet downstream, is idle again and cancels the timer, all at
    the present time; afterwards, however far time advances, the timer
    delivers nothing. *)
Theorem preemption_finalizes_and_cancels
    (s : Server) (g : Gate) (old finalized : Packet) (rest : list Packet) :
  streamedPacket s = Some old ->
  provider s = Some g ->
  upstream s = finalized :: rest ->
  let r := handleCanPullPacketChanged s in
  fst r = Ok tt /\
  streamedPacket (snd r) = None /\
  timer (snd r) = None /\
  now (snd r) = now s /\
  appended (trace s) (snd r) =
    [(now s, ProviderPullPacketEnd g);
     (now s, Delete old);
     (now s, PushOrSendPacketEnd finalized (consumer s) (transmissionId finalized));
     (now s, CancelClockEvent)] /\
  forall ts : list Time,
    fst (advanceThrough ts (snd r)) = Ok tt /\
    trace (snd (advanceThrough ts (snd r))) = trace (snd r) /\
    streamedPacket (snd (advanceThrough ts (snd r))) = None.
Proof.
  intros Hstreaming Hg Hu. cbn zeta.
  assert (Hrun : handleCanPullPacketChanged s =
    (Ok tt,
     set_timer None (add_event CancelClockEvent
       (set_streamedPacket None
         (add_event (PushOrSendPacketEnd finalized (consumer s) (transmissionId finalized))
           (set_streamedPacket (Some finalized)
             (add_event (Delete old)
               (set_upstream rest (add_event (ProviderPullPacketEnd g) s))))))))).
  { unfold_server. cbn. rewrite Hstreaming. cbn. rewrite Hg, Hu. cbn.
    rewrite Hstreaming. reflexivity. }
  rewrite Hrun.
  repeat match goal with |- _ /\ _ => split end; try reflexivity.
  - server_trace.
  - intros ts.
    match goal with
    | |- context [advanceThrough ts (snd (_, ?s'))] =>
        destruct (advanceThrough_unscheduled ts s' eq_refl) as (H1 & H2 & _ & H4)
    end.
    repeat split; assumption.
Qed.

(** C2, as amended -- a streaming server receiving the push-processed
    acknowledgment: it discards the streamed copy, pull-ends from the
    Provider, discards the finalized packet as well and clears
    [streamedPacket], so that it is no longer streaming on return; nothing
    is pushed downstream and the timer is left as it was. *)
Theorem push_processed_clears_streamed_packet
    (s : Server) (g : Gate) (old finalized : Packet) (rest : list Packet)
    (packet : Packet) (successful : bool) :
  streamedPacket s = Some old ->
  provider s = Some g ->
  upstream s = finalized :: rest ->
  let r := handlePushPacketProcessed packet successful s in
  fst r = Ok tt /\
  streamedPacket (snd r) = None /\
  isStreaming (snd r) = false /\
  timer (snd r) = timer s /\
  now (snd r) = now s /\
  upstream (snd r) = rest /\
  appended (trace s) (snd r) =
    [(now s, Delete old);
     (now s, ProviderPullPacketEnd g);
     (now s, Delete finalized)].
Proof.
  intros Hstreaming Hg Hu. cbn zeta.
  assert (Hrun : handlePushPacketProcessed packet successful s =
    (Ok tt,
     set_streamedPacket None
       (add_event (Delete finalized)
         (set_streamedPacket (Some finalized)
           (set_upstream rest
             (add_event (ProviderPullPacketEnd g) (add_event (Delete old) s))))))).
  { unfold_server. cbn. rewrite Hstreaming. cbn. rewrite Hg, Hu. reflexivity. }
  rewrite Hrun.
  repeat match goal with |- _ /\ _ => split end; try reflexivity.
  server_trace.
Qed.

(** *** Further properties: the life of a transfer *)

Lemma bind_returns {A B : Type} (m : M Server A) (k : A -> M Server B)
    (s s' : Server) (a : A) :
  m s = (Ok a, s') -> bind m k s = k a s'.
Proof. intros H. unfold bind. rewrite H. reflexivity. Qed.

Lemma startStreaming_run (s : Server) (g : Gate) (packet : Packet) (rest : list Packet) :
  provider s = Some g -> upstream s = packet :: rest ->
  exists s',
    startStreaming s = (Ok tt, s') /\
    streamedPacket s' = Some packet /\
    timer s' = Some (after (now s) (transmissionTime (totalLength packet) (datarate s))) /\
    now s' = now s /\ datarate s' = datarate s /\
    provider s' = provider s /\ consumer s' = consumer s /\
    providerCanPullSomePacket s' = providerCanPullSomePacket s /\
    consumerCanPushSomePacket s' = consumerCanPushSomePacket s /\
    upstream s' = rest /\
    trace s' = trace s ++ startCalls s g packet.
Proof.
  intros Hg Hu. eexists. split.
  - unfold_server. cbn. rewrite Hg, Hu. reflexivity.
  - cbn. unfold startCalls. rewrite <- ?app_assoc. repeat split; reflexivity.
Qed.

Lemma endStreaming_run (s : Server) (g : Gate) (finalized : Packet) (rest : list Packet) :
  provider s = Some g -> upstream s = finalized :: rest ->
  exists s',
    endStreaming s = (Ok tt, s') /\
    streamedPacket s' = None /\
    timer s' = timer s /\
    now s' = now s /\ datarate s' = datarate s /\
    provider s' = provider s /\ consumer s' = consumer s /\
    providerCanPullSomePacket s' = providerCanPullSomePacket s /\
    consumerCanPushSomePacket s' = consumerCanPushSomePacket s /\
    upstream s' = rest /\
    trace s' = trace s ++ endCalls s (now s) g (streamedPacket s) finalized.
Proof.
  intros Hg Hu. unfold endCalls.
  destruct (streamedPacket s) as [old|] eqn:Hold; eexists; (split;
    [ unfold_server; cbn; rewrite Hg, Hu; cbn; rewrite Hold; reflexivity
    | cbn; rewrite <- ?app_assoc; repeat split; reflexivity ]).
Qed.

(** X10 -- notifications that change nothing. A push-capability change is
    ignored by a streaming server: no call, no change of state. An idle
    server whose Provider has nothing to pull, or whose Consumer cannot be
    pushed to, ignores both capability changes. *)
Theorem notifications_without_effect (s : Server) :
  (forall p, streamedPacket s = Some p ->
     handleCanPushPacketChanged s = (Ok tt, s)) /\
  (forall g, streamedPacket s = None -> provider s = Some g ->
     providerCanPullSomePacket s = false ->
     handleCanPushPacketChanged s = (Ok tt, s) /\
     handleCanPullPacketChanged s = (Ok tt, s)) /\
  (forall g c, streamedPacket s = None -> provider s = Some g -> consumer s = Some c ->
     consumerCanPushSomePacket s = false ->
     handleCanPushPacketChanged s = (Ok tt, s) /\
     handleCanPullPacketChanged s = (Ok tt, s)).
Proof.
  split; [|split].
  - intros p Hp. unfold_server. cbn. rewrite Hp. reflexivity.
  - intros g Hidle Hg Hcan. split; unfold_server; cbn; rewrite Hidle; cbn;
      rewrite Hg, Hcan; reflexivity.
  - intros g c Hidle Hg Hc Hcan. split; unfold_server; cbn; rewrite Hidle; cbn;
      rewrite Hg, Hc, Hcan; destruct (providerCanPullSomePacket s); reflexivity.
Qed.

Lemma idle_notification_starts (s : Server) :
  streamedPacket s = None ->
  canStartStreaming s = (Ok true, s) ->
  handleCanPushPacketChanged s = startStreaming s /\
  handleCanPullPacketChanged s = startStreaming s.
Proof.
  intros Hidle Hcan. split.
  - unfold handleCanPushPacketChanged, isStreaming, bind at 1, get.
    rewrite Hidle. cbn. unfold bind at 1. rewrite Hcan. reflexivity.
  - unfold handleCanPullPacketChanged, isStreaming, bind at 1, get.
    rewrite Hidle. cbn. unfold bind at 1. rewrite Hcan. reflexivity.
Qed.

Lemma advanceTo_due (s : Server) (due t : Time) :
  timer s = Some due -> Qle_bool due t = true ->
  advanceTo t s =
    (handleMessage_timer ;; modify (set_now t)) (set_timer None (set_now due s)).
Proof.
  intros Htimer Hdue. unfold advanceTo, bind at 1, get.
  rewrite Htimer, Hdue. reflexivity.
Qed.

Lemma advanceTo_early (s : Server) (due t : Time) :
  timer s = Some due -> Qle_bool due t = false ->
  advanceTo t s = (Ok tt, set_now t s).
Proof.
  intros Htimer Hdue. unfold advanceTo, bind at 1, get.
  rewrite Htimer, Hdue. reflexivity.
Qed.

(** X11 -- a transfer left alone. An idle server whose neighbours allow
    streaming is notified and then time advances to [t]. If the timer is due
    by then, it has fired at its due time, [totalLength / datarate] after
    the start: the server has pull-ended, discarded the streamed packet,
    push-ended the finalized one, and is idle with no timer scheduled. If
    the timer is not yet due, the server is still streaming and nothing but
    the start has happened. *)
Theorem transfer_left_alone
    (s : Server) (g : Gate) (packet finalized : Packet) (rest : list Packet) (t : Time) :
  streamedPacket s = None ->
  canStartStreaming s = (Ok true, s) ->
  provider s = Some g ->
  upstream s = packet :: finalized :: rest ->
  0 < datarate s ->
  (0 <= totalLength packet)%Z ->
  let due := after (now s) (transmissionTime (totalLength packet) (datarate s)) in
  let r := (handleCanPushPacketChanged ;; advanceTo t) s in
  fst r = Ok tt /\ now (snd r) = t /\
  (Qle_bool due t = true ->
     streamedPacket (snd r) = None /\
     timer (snd r) = None /\
     upstream (snd r) = rest /\
     appended (trace s) (snd r) =
       startCalls s g packet ++ endCalls s due g (Some packet) finalized) /\
  (Qle_bool due t = false ->
     streamedPacket (snd r) = Some packet /\
     timer (snd r) = Some due /\
     upstream (snd r) = finalized :: rest /\
     appended (trace s) (snd r) = startCalls s g packet).
Proof.
  intros Hidle Hcan Hg Hu Hrate Hlength. cbn zeta.
  destruct (idle_notification_starts s Hidle Hcan) as [Hpush _].
  destruct (startStreaming_run s g packet (finalized :: rest) Hg Hu)
    as (s1 & Hrun1 & Hsp1 & Htimer1 & Hnow1 & Hrate1 & Hp1 & Hc1 & _ & _ & Hu1 & Ht1).
  rewrite (bind_returns _ _ s s1 tt) by (rewrite Hpush; exact Hrun1).
  destruct (Qle_bool (after (now s) (transmissionTime (totalLength packet) (datarate s))) t)
    eqn:Hdue.
  - rewrite (advanceTo_due s1 _ t Htimer1 Hdue).
    set (s1' := set_timer None
                  (set_now (after (now s) (transmissionTime (totalLength packet) (datarate s)))
                     s1)).
    destruct (endStreaming_run s1' g finalized rest)
      as (s2 & Hrun2 & Hsp2 & Htimer2 & Hnow2 & _ & _ & Hc2 & _ & _ & Hu2 & Ht2).
    { cbn. congruence. }
    { cbn. exact Hu1. }
    unfold handleMessage_timer.
    rewrite (bind_returns _ _ s1' s2 tt Hrun2). cbn.
    split; [reflexivity|]. split; [reflexivity|].
    split; [|intros Hfalse; discriminate Hfalse].
    intros _. repeat split; auto.
    apply appended_trace. cbn. rewrite Ht2. cbn. rewrite Ht1, Hsp1.
    unfold endCalls. cbn. rewrite Hc1, <- app_assoc. reflexivity.
  - rewrite (advanceTo_early s1 _ t Htimer1 Hdue). cbn.
    split; [reflexivity|]. split; [reflexivity|].
    split; [intros Htrue; discriminate Htrue|].
    intros _. repeat split; auto.
    apply appended_trace. exact Ht1.
Qed.

(** X12 -- the timer left behind by an acknowledgment. When a streaming
    server receives the push-processed acknowledgment and the timer message
    arrives afterwards, the server, though idle by then, pull-ends from the
    Provider a second time and push-ends that packet downstream: ending is
    not guarded by the streaming state. *)
Theorem timer_after_acknowledgment
    (s : Server) (g : Gate) (old first second : Packet) (rest : list Packet)
    (packet : Packet) (successful : bool) :
  streamedPacket s = Some old ->
  provider s = Some g ->
  upstream s = first :: second :: rest ->
  let r := (handlePushPacketProcessed packet successful ;; handleMessage_timer) s in
  fst r = Ok tt /\
  streamedPacket (snd r) = None /\
  upstream (snd r) = rest /\
  appended (trace s) (snd r) =
    [(now s, Delete old);
     (now s, ProviderPullPacketEnd g);
     (now s, Delete first);
     (now s, ProviderPullPacketEnd g);
     (now s, PushOrSendPacketEnd second (consumer s) (transmissionId second))].
Proof.
  intros Hstreaming Hg Hu. cbn zeta.
  assert (Hrun : (handlePushPacketProcessed packet successful ;; handleMessage_timer) s =
    (Ok tt,
     set_streamedPacket None
       (add_event (PushOrSendPacketEnd second (consumer s) (transmissionId second))
         (set_streamedPacket (Some second)
           (set_upstream rest
             (add_event (ProviderPullPacketEnd g)
               (set_streamedPacket None
                 (add_event (Delete first)
                   (set_streamedPacket (Some first)
                     (set_upstream (second :: rest)
                       (add_event (ProviderPullPacketEnd g)
                         (add_event (Delete old) s)))))))))))).
  { unfold_server.
    repeat (progress (cbn; rewrite ?Hstreaming, ?Hg, ?Hu)). reflexivity. }
  rewrite Hrun. repeat split. server_trace.
Qed.


(** X14 -- the completion is never scheduled in the past. With a positive
    rate and a length that is not negative, the timer set by
    [startStreaming] is due [totalLength / datarate] after the present time,
    hence not before it, and strictly after it for a packet that is not
    empty. *)
Theorem completion_not_in_the_past
    (s : Server) (g : Gate) (packet : Packet) (rest : list Packet) :
  provider s = Some g ->
  upstream s = packet :: rest ->
  0 < datarate s ->
  (0 <= totalLength packet)%Z ->
  exists due : Time,
    timer (snd (startStreaming s)) = Some due /\
    due == now s + inject_Z (totalLength packet) / datarate s /\
    now s <= due /\
    ((0 < totalLength packet)%Z -> now s < due).
Proof.
  intros Hg Hu Hrate Hlength.
  destruct (startStreaming_run s g packet rest Hg Hu) as (s1 & Hrun & _ & Htimer & _).
  rewrite Hrun. cbn [snd].
  exists (after (now s) (transmissionTime (totalLength packet) (datarate s))).
  split; [exact Htimer|].
  assert (Hdue : after (now s) (transmissionTime (totalLength packet) (datarate s)) ==
                 now s + inject_Z (totalLength packet) / datarate s).
  { unfold after, transmissionTime. rewrite !Qred_correct. reflexivity. }
  split; [exact Hdue|].
  rewrite Hdue. split.
  - rewrite <- (Qplus_0_r (now s)) at 1. apply Qplus_le_r.
    apply Qle_shift_div_l; [exact Hrate|].
    rewrite Qmult_0_l. rewrite <- (Zle_Qle 0). exact Hlength.
  - intros Hpos.
    rewrite <- (Qplus_0_r (now s)) at 1. apply Qplus_lt_r.
    apply Qlt_shift_div_l; [exact Hrate|].
    rewrite Qmult_0_l. rewrite <- (Zlt_Qlt 0). exact Hpos.
Qed.

Lemma preemption_run (s : Server) (g : Gate) (old finalized : Packet) (rest : list Packet) :
  streamedPacket s = Some old -> provider s = Some g -> upstream s = finalized :: rest ->
  exists s',
    handleCanPullPacketChanged s = (Ok tt, s') /\
    streamedPacket s' = None /\ timer s' = None /\
    now s' = now s /\ datarate s' = datarate s /\
    provider s' = provider s /\ consumer s' = consumer s /\
    providerCanPullSomePacket s' = providerCanPullSomePacket s /\
    consumerCanPushSomePacket s' = consumerCanPushSomePacket s /\
    upstream s' = rest /\
    trace s' = trace s ++ endCalls s (now s) g (Some old) finalized ++
               [(now s, CancelClockEvent)].
Proof.
  intros Hold Hg Hu. eexists. split.
  - unfold_server. repeat (progress (cbn; rewrite ?Hold, ?Hg, ?Hu)). reflexivity.
  - cbn. unfold endCalls. cbn. rewrite <- ?app_assoc. repeat split; reflexivity.
Qed.

(** X15 -- back to back. A streaming server is preempted and, both
    neighbours being ready, notified again at once: the first notification
    finalizes the running transfer and cancels its timer, the second starts
    the next packet of the Provider with a timer of its own. *)
Theorem preempt_then_restart
    (s : Server) (g c : Gate) (old finalized next : Packet) (rest : list Packet) :
  streamedPacket s = Some old ->
  provider s = Some g ->
  consumer s = Some c ->
  providerCanPullSomePacket s = true ->
  consumerCanPushSomePacket s = true ->
  upstream s = finalized :: next :: rest ->
  0 < datarate s ->
  (0 <= totalLength next)%Z ->
  let r := (handleCanPullPacketChanged ;; handleCanPullPacketChanged) s in
  fst r = Ok tt /\
  streamedPacket (snd r) = Some next /\
  timer (snd r) =
    Some (after (now s) (transmissionTime (totalLength next) (datarate s))) /\
  upstream (snd r) = rest /\
  appended (trace s) (snd r) =
    endCalls s (now s) g (Some old) finalized ++
    [(now s, CancelClockEvent)] ++
    startCalls s g next.
Proof.
  intros Hold Hg Hc Hpull Hpush Hu Hrate Hlength. cbn zeta.
  destruct (preemption_run s g old finalized (next :: rest) Hold Hg Hu)
    as (s1 & Hrun1 & Hsp1 & Htimer1 & Hnow1 & Hrate1 & Hp1 & Hc1 & Hpull1 & Hpush1 & Hu1 & Ht1).
  rewrite (bind_returns _ _ s s1 tt Hrun1).
  assert (Hcan : canStartStreaming s1 = (Ok true, s1)).
  { unfold canStartStreaming, bind, get.
    rewrite Hp1, Hg, Hpull1, Hpull, Hc1, Hc, Hpush1, Hpush. reflexivity. }
  destruct (idle_notification_starts s1 Hsp1 Hcan) as [_ Hpullstart].
  destruct (startStreaming_run s1 g next rest (eq_trans Hp1 Hg) Hu1)
    as (s2 & Hrun2 & Hsp2 & Htimer2 & _ & _ & _ & _ & _ & _ & Hu2 & Ht2).
  rewrite Hpullstart, Hrun2. cbn [fst snd].
  repeat split; auto.
  - rewrite Htimer2, Hnow1, Hrate1. reflexivity.
  - apply appended_trace. rewrite Ht2, Ht1. unfold startCalls.
    rewrite Hnow1, Hrate1, Hc1, <- !app_assoc. reflexivity.
Qed.

End Operations.

(** *** Concrete runs *)

(** [server4] is where [server0] stands at tick 4 after the notification
    at tick 0. *)
Example server4_state :
  snd ((handleCanPushPacketChanged copy ;; advanceTo 4) server0) = server4.
Proof. vm_compute. reflexivity. Qed.

(** Left alone, the transfer completes when the timer fires at tick 10. *)
Example completion_at_tick_10 :
  trace (snd (advanceTo 12 server4)) =
    trace server4 ++
    [(10, ProviderPullPacketEnd 1%Z);
     (10, Delete started);
     (10, PushOrSendPacketEnd ended (Some 2%Z) 71)].
Proof. vm_compute. reflexivity. Qed.

(** An idle server whose Provider has nothing to pull stays idle. *)
Example idle_server_stays_idle :
  let s := mkServer (10 # 1) None None 0 (Some 1%Z) (Some 2%Z) false true [] [] in
  handleCanPushPacketChanged copy s = (Ok tt, s).
Proof. reflexivity. Qed.

(** 100 bits at 10 bits per tick from tick 0: the timer is due at tick 10. *)
Lemma idle_to_streaming_actions_witness :
  streamedPacket server0 = None /\
  handleCanPushPacketChanged copy server0 = startStreaming copy server0 /\
  streamedPacket (snd (startStreaming copy server0)) = Some started /\
  timer (snd (startStreaming copy server0)) = Some 10.
Proof.
  assert (Hrate : 0 < datarate server0) by reflexivity.
  assert (Hlength : (0 <= totalLength started)%Z) by (cbn; lia).
  destruct (idle_to_streaming_actions copy server0 1%Z started [ended]
              eq_refl eq_refl eq_refl eq_refl Hrate Hlength)
    as (Hpush & _ & _ & Hpacket & _ & Htimer & _).
  split; [reflexivity|].
  split; [exact Hpush|].
  split; [exact Hpacket|].
  rewrite Htimer. vm_compute. reflexivity.
Defined.

(** Preempted at tick 4: the transfer is finalized at tick 4 and nothing
    happens at tick 10 or later. *)
Lemma preemption_finalizes_and_cancels_witness :
  let r := handleCanPullPacketChanged copy server4 in
  timer server4 = Some 10 /\
  timer (snd r) = None /\
  appended (trace server4) (snd r) =
    [(4, ProviderPullPacketEnd 1%Z);
     (4, Delete started);
     (4, PushOrSendPacketEnd ended (Some 2%Z) 71);
     (4, CancelClockEvent)] /\
  trace (snd (advanceThrough [10; 20] (snd r))) = trace (snd r).
Proof.
  cbn zeta.
  destruct (preemption_finalizes_and_cancels copy server4 1%Z started ended []
              eq_refl eq_refl eq_refl)
    as (_ & _ & Htimer & _ & Htrace & Hlater).
  split; [reflexivity|].
  split; [exact Htimer|].
  split; [rewrite Htrace; vm_compute; reflexivity|].
  exact (proj1 (proj2 (Hlater [10; 20]))).
Defined.

(** C2, counterexample -- the server streaming since tick 0 receives the
    push-processed acknowledgment at tick 4: on return [streamedPacket] is
    null, the server is not in the Streaming state any more. *)
Lemma push_processed_leaves_streaming_state :
  let r := handlePushPacketProcessed started true server4 in
  isStreaming server4 = true /\
  failed r = None /\
  streamedPacket (snd r) = None /\
  isStreaming (snd r) = false.
Proof. vm_compute. repeat split. Qed.

(** The acknowledgment at tick 4: two packets discarded, one pull-end, the
    timer still due at tick 10. *)
Lemma push_processed_clears_streamed_packet_witness :
  let r := handlePushPacketProcessed started true server4 in
  streamedPacket server4 = Some started /\
  streamedPacket (snd r) = None /\
  timer (snd r) = Some 10 /\
  appended (trace server4) (snd r) =
    [(4, Delete started); (4, ProviderPullPacketEnd 1%Z); (4, Delete ended)].
Proof.
  cbn zeta.
  destruct (push_processed_clears_streamed_packet server4 1%Z started ended []
              started true eq_refl eq_refl eq_refl)
    as (_ & Hnone & _ & Htimer & _ & _ & Htrace).
  split; [reflexivity|].
  split; [exact Hnone|].
  split; [rewrite Htimer; reflexivity|].
  rewrite Htrace. vm_compute. reflexivity.
Defined.

(** *** Concrete runs of whole transfers *)

(** The streaming server ignores the push-capability change; an idle
    server with nothing to pull ignores both changes. *)
Lemma notifications_without_effect_witness :
  let empty := mkServer (10 # 1) None None 0 (Some 1%Z) (Some 2%Z) false true [] [] in
  handleCanPushPacketChanged copy server4 = (Ok tt, server4) /\
  handleCanPullPacketChanged copy empty = (Ok tt, empty).
Proof.
  cbn zeta.
  destruct (notifications_without_effect copy server4) as (Hstreaming & _ & _).
  destruct (notifications_without_effect copy
              (mkServer (10 # 1) None None 0 (Some 1%Z) (Some 2%Z) false true [] []))
    as (_ & Hempty & _).
  split; [exact (Hstreaming started eq_refl)|].
  exact (proj2 (Hempty 1%Z eq_refl eq_refl eq_refl)).
Defined.

(** 100 bits at 10 bits per tick from tick 0, looked at at tick 12: the
    transfer was completed at tick 10. *)
Lemma transfer_left_alone_witness :
  let r := (handleCanPushPacketChanged copy ;; advanceTo 12) server0 in
  fst r = Ok tt /\ now (snd r) = 12 /\
  streamedPacket (snd r) = None /\ timer (snd r) = None /\
  appended (trace server0) (snd r) =
    startCalls copy server0 1%Z started ++ endCalls server0 10 1%Z (Some started) ended.
Proof.
  cbn zeta.
  assert (Hrate : 0 < datarate server0) by reflexivity.
  assert (Hlength : (0 <= totalLength started)%Z) by (cbn; lia).
  destruct (transfer_left_alone copy server0 1%Z started ended [] 12
              eq_refl eq_refl eq_refl eq_refl Hrate Hlength)
    as (Hok & Hnow & Hdue & _).
  destruct (Hdue eq_refl) as (Hidle & Htimer & _ & Htrace).
  split; [exact Hok|]. split; [exact Hnow|]. split; [exact Hidle|].
  split; [exact Htimer|]. rewrite Htrace. reflexivity.
Defined.

(** The acknowledgment at tick 4, then the timer message: two pull-ends,
    and a push-end from a server that streams nothing. *)
Lemma timer_after_acknowledgment_witness :
  let s := mkServer (10 # 1) (Some started) (Some 10) 4 (Some 1%Z) (Some 2%Z) true true
             [ended; ended] [] in
  let r := (handlePushPacketProcessed started true ;; handleMessage_timer) s in
  fst r = Ok tt /\
  appended (trace s) (snd r) =
    [(4, Delete started);
     (4, ProviderPullPacketEnd 1%Z);
     (4, Delete ended);
     (4, ProviderPullPacketEnd 1%Z);
     (4, PushOrSendPacketEnd ended (Some 2%Z) 71)].
Proof.
  cbn zeta.
  destruct (timer_after_acknowledgment
              (mkServer (10 # 1) (Some started) (Some 10) 4 (Some 1%Z) (Some 2%Z) true true
                 [ended; ended] [])
              1%Z started ended ended [] started true eq_refl eq_refl eq_refl)
    as (Hok & _ & _ & Htrace).
  split; [exact Hok | exact Htrace].
Defined.


(** 100 bits at 10 bits per tick from tick 0: due at tick 10, after tick 0. *)
Lemma completion_not_in_the_past_witness :
  exists due : Time,
    timer (snd (startStreaming copy server0)) = Some due /\
    due == 10 /\ now server0 < due.
Proof.
  assert (Hrate : 0 < datarate server0) by reflexivity.
  assert (Hlength : (0 <= totalLength started)%Z) by (cbn; lia).
  assert (Hpositive : (0 < totalLength started)%Z) by (cbn; lia).
  destruct (completion_not_in_the_past copy server0 1%Z started [ended]
              eq_refl eq_refl Hrate Hlength) as (due & Htimer & Hdue & _ & Hlater).
  exists due. split; [exact Htimer|].
  split; [rewrite Hdue; reflexivity | exact (Hlater Hpositive)].
Defined.

(** Preempted at tick 4 and notified again: the next packet is streamed,
    with its timer due at tick 14. *)
Lemma preempt_then_restart_witness :
  let s := mkServer (10 # 1) (Some started) (Some 10) 4 (Some 1%Z) (Some 2%Z) true true
             [ended; started; ended] [] in
  let r := (handleCanPullPacketChanged copy ;; handleCanPullPacketChanged copy) s in
  fst r = Ok tt /\ streamedPacket (snd r) = Some started /\ timer (snd r) = Some 14.
Proof.
  cbn zeta.
  assert (Hlength : (0 <= totalLength started)%Z) by (cbn; lia).
  destruct (preempt_then_restart copy
              (mkServer (10 # 1) (Some started) (Some 10) 4 (Some 1%Z) (Some 2%Z) true true
                 [ended; started; ended] [])
              1%Z 2%Z started ended started [ended]
              eq_refl eq_refl eq_refl eq_refl eq_refl eq_refl eq_refl Hlength)
    as (Hok & Hpacket & Htimer & _).
  split; [exact Hok|]. split; [exact Hpacket|].
  rewrite Htimer. vm_compute. reflexivity.
Defined.

End PreemptingServer.
